(** * Quadruped simulation loop: robot executor and object integrator

    A shallow embedding of [RobotController] and [RigidBodyObject] (the
    per-frame callbacks of the simulation canvas) together with the queue
    admission effect, followed by the properties of the locomotion loop.

    Numbers.  JavaScript numbers are modelled as exact rationals [Q]: every
    comparison and arithmetic step of the source is kept, rounding is not.
    [Math.sin], [Math.cos] and [Math.PI] are not rational; they are taken as
    parameters of the section below, so every statement holds for whatever
    functions stand there. *)

From Stdlib Require Import ZArith QArith Qabs Qminmax String List Bool Arith Lia Lqa.
Import ListNotations.

Open Scope Q_scope.

(** ** Numbers *)

(** [x < y] on numbers, as a boolean. *)
Definition Qltb (x y : Q) : bool := negb (Qle_bool y x).

(** [x !== 0]. *)
Definition nonzero (x : Q) : bool := negb (Qeq_bool x 0).

(** Truncated series used only to instantiate the section parameters in the
    closed examples at the end of the file. *)
Definition sin_series (x : Q) : Q := x - x * x * x / 6 + x * x * x * x * x / 120.
Definition cos_series (x : Q) : Q := 1 - x * x / 2 + x * x * x * x / 24.
Definition pi_approx : Q := 355 # 113.

(** ** Constants *)

Definition TORSO_DIMS : list Q := [0.4; 0.15; 0.6].
Definition MOVE_SPEED : Q := 1.5.
Definition ROT_SPEED : Q := 2.0.
Definition GAIT_FREQ : Q := 12.
Definition GAIT_AMP : Q := 0.4.
Definition GRAVITY : Q := 20.0.
Definition JUMP_FORCE : Q := 8.0.
Definition GROUND_Y : Q := 0.55.
Definition ROBOT_COLLISION_RADIUS : Q := 0.35.
Definition OBJECT_COLLISION_RADIUS : Q := 0.25.
Definition COLLISION_DIST : Q := ROBOT_COLLISION_RADIUS + OBJECT_COLLISION_RADIUS.

(** ** Data model *)

Record Vector3 := mkVector3 { x : Q; y : Q; z : Q }.

(** The twelve joints of [JOINT_NAMES]. *)
Record JointState := mkJoints {
  FL_hip : Q; FL_thigh : Q; FL_calf : Q;
  FR_hip : Q; FR_thigh : Q; FR_calf : Q;
  BL_hip : Q; BL_thigh : Q; BL_calf : Q;
  BR_hip : Q; BR_thigh : Q; BR_calf : Q }.

Definition INITIAL_JOINTS : JointState :=
  mkJoints 0 0.5 (-1.0) 0 0.5 (-1.0) 0 0.5 (-1.0) 0 0.5 (-1.0).

(** [type] stays a string: the planner is untrusted and may send any tag.
    Optional fields are [option]s. *)
Record RobotCommand := mkCommand {
  type : string;
  duration : option Q;
  targetJoints : option JointState;
  description : option string }.

Record SimStats := mkStats {
  stat_position : Vector3;
  stat_velocity : Q;
  stat_rotation : Q;
  stat_isMoving : bool;
  stat_currentAction : string }.

(** [objectTracker.current]: a [Map] from object id to position, kept in
    insertion order, which is the order [values()] iterates in. *)
Definition ObjectTracker := list (string * Vector3).

Fixpoint tracker_set (id : string) (p : Vector3) (t : ObjectTracker) : ObjectTracker :=
  match t with
  | [] => [(id, p)]
  | (k, v) :: rest =>
      if String.eqb k id then (k, p) :: rest else (k, v) :: tracker_set id p rest
  end.

Definition tracker_values (t : ObjectTracker) : list Vector3 := map snd t.

(** [keys.current]: key code to held flag; an absent code reads as falsy. *)
Definition Keys := string -> bool.

Definition no_keys : Keys := fun _ => false.
Definition press (code : string) (k : Keys) : Keys :=
  fun c => if String.eqb c code then true else k c.

(** ** Robot controller state *)

(** The physics refs: [position], [rotation] (yaw) and [verticalVel]. *)
Record Pose := mkPose {
  position : Vector3;
  rotation : Q;
  verticalVel : Q }.

(** The command execution refs. *)
Record Exec := mkExec {
  cmdIndex : nat;
  cmdStartTime : Q;
  isExecuting : bool;
  lastQueueLength : nat }.

Record Robot := mkRobot {
  pose : Pose;
  exec : Exec;
  renderedJoints : JointState }.

(** Initial refs of the component. *)
Definition initial_pose : Pose := mkPose (mkVector3 0 2.0 0) 0 0.
Definition initial_exec : Exec := mkExec 0 0 false 0.
Definition initial_robot (baseJoints : JointState) : Robot :=
  mkRobot initial_pose initial_exec baseJoints.

(** Calls made to the owner of the component during a frame, in order. *)
Inductive Event :=
| onUpdateJoints (j : JointState)
| onClearQueue
| onUpdateStats (s : SimStats).

(** ** Queue admission (the effect on [commandQueue]) *)

Definition installQueue (commandQueue : list RobotCommand) (e : Exec) : Exec :=
  let len := length commandQueue in
  if (0 <? len)%nat && negb (len =? lastQueueLength e)%nat then
    mkExec 0 0 true len
  else if (len =? 0)%nat then
    mkExec (cmdIndex e) (cmdStartTime e) false len
  else
    mkExec (cmdIndex e) (cmdStartTime e) (isExecuting e) len.

(** ** Command execution *)

(** The per-frame locals [forward], [turn], [jump] and [activeDesc]. *)
Record Intent := mkIntent {
  forward : Q;
  turn : Q;
  jump : bool;
  activeDesc : string }.

Definition idle : Intent := mkIntent 0 0 false "".

(** [cmdIndexRef.current++; cmdStartTimeRef.current = 0]. *)
Definition advance (e : Exec) : Exec :=
  mkExec (S (cmdIndex e)) 0 (isExecuting e) (lastQueueLength e).

Definition stamp (now : Q) (e : Exec) : Exec :=
  mkExec (cmdIndex e) now (isExecuting e) (lastQueueLength e).

(** [cmd.duration || 1.0]: an absent or zero duration is falsy. *)
Definition duration_or_default (cmd : RobotCommand) : Q :=
  match duration cmd with
  | Some d => if Qeq_bool d 0 then 1.0 else d
  | None => 1.0
  end.

(** [cmd.description || cmd.type]: an absent or empty description is falsy. *)
Definition description_or_type (cmd : RobotCommand) : string :=
  match description cmd with
  | Some d => if String.eqb d "" then type cmd else d
  | None => type cmd
  end.

(** What the command branch of the frame leaves behind: either the frame
    returned early (the [SET_JOINTS] path, with the joints handed to
    [onUpdateJoints]), or it falls through with the locals set. *)
Inductive CommandStep :=
| Returned (e : Exec) (target : JointState)
| Resolved (e : Exec) (i : Intent).

Definition runCommand (cmd : RobotCommand) (now : Q) (e : Exec) : CommandStep :=
  let first := Qeq_bool (cmdStartTime e) 0 in
  let e1 := if first then stamp now e else e in
  match (if first && String.eqb (type cmd) "SET_JOINTS" then targetJoints cmd else None) with
  | Some target => Returned (advance e1) target
  | None =>
      let jumps := first && String.eqb (type cmd) "JUMP" in
      let e2 := if jumps then advance e1 else e1 in
      if negb (String.eqb (type cmd) "SET_JOINTS") && negb (String.eqb (type cmd) "JUMP") then
        let elapsed := now - cmdStartTime e2 in
        let desc := description_or_type cmd in
        if Qltb elapsed (duration_or_default cmd) then
          let f := if String.eqb (type cmd) "MOVE_FORWARD" then 1 else 0 in
          let f := if String.eqb (type cmd) "MOVE_BACKWARD" then -1 else f in
          let t := if String.eqb (type cmd) "TURN_LEFT" then 1 else 0 in
          let t := if String.eqb (type cmd) "TURN_RIGHT" then -1 else t in
          Resolved e2 (mkIntent f t jumps desc)
        else
          Resolved (advance e2) (mkIntent 0 0 jumps desc)
      else
        Resolved e2 (mkIntent 0 0 jumps "")
  end.

(** The whole command execution block of the frame.  The boolean records
    the call to [onClearQueue].  The [None] case of the lookup cannot be
    reached under the bounds test (lemma [commandLogic_in_bounds]). *)
Definition commandLogic (commandQueue : list RobotCommand) (now : Q) (e : Exec)
  : CommandStep * bool :=
  if isExecuting e && (cmdIndex e <? length commandQueue)%nat then
    match nth_error commandQueue (cmdIndex e) with
    | Some cmd => (runCommand cmd now e, false)
    | None => (Resolved e idle, false)
    end
  else if isExecuting e && (length commandQueue <=? cmdIndex e)%nat then
    (Resolved (mkExec (cmdIndex e) (cmdStartTime e) false (lastQueueLength e)) idle, true)
  else
    (Resolved e idle, false).

(** Manual input, read only when no queue is executing. *)
Definition keyboard (k : Keys) (i : Intent) : Intent :=
  let f := if k "KeyW"%string || k "ArrowUp"%string then 1 else forward i in
  let f := if k "KeyS"%string || k "ArrowDown"%string then -1 else f in
  let t := if k "KeyA"%string || k "ArrowLeft"%string then 1 else turn i in
  let t := if k "KeyD"%string || k "ArrowRight"%string then -1 else t in
  let j := if k "KeyJ"%string then true else jump i in
  mkIntent f t j (activeDesc i).

(** ** Object integrator ([RigidBodyObject]) *)

Record Body := mkBody {
  pos : Vector3;
  velocity : Q }.

(** The sync effect: runs when the declared position of the object changes. *)
Definition syncObject (id : string) (declared : Vector3) (t : ObjectTracker)
  : Body * ObjectTracker :=
  (mkBody declared 0, tracker_set id declared t).

(** The floor collision of the cube (half height 0.15). *)
Definition bounce (py v : Q) : Q * Q :=
  if Qltb py 0.15 then
    let v' := - v * 0.4 in
    (0.15, if Qltb (Qabs v') 0.5 then 0 else v')
  else (py, v).

(** One frame of the object; [mounted] is [meshRef.current] being set.
    The tracker holds the very vector the body mutates, so it is rewritten
    with the body's position whenever that position is integrated. *)
Definition objectFrame (mounted : bool) (delta : Q) (id : string)
  (b : Body) (t : ObjectTracker) : Body * ObjectTracker :=
  if negb mounted then (b, t)
  else if Qltb 0.1501 (y (pos b)) || Qltb 0.01 (Qabs (velocity b)) then
    let v1 := velocity b - GRAVITY * delta in
    let y1 := y (pos b) + v1 * delta in
    let '(y2, v2) := bounce y1 v1 in
    let p := mkVector3 (x (pos b)) y2 (z (pos b)) in
    (mkBody p v2, tracker_set id p t)
  else (b, t).

(** The body alone, over a sequence of frame deltas. *)
Fixpoint objectRun (deltas : list Q) (id : string) (b : Body) (t : ObjectTracker)
  : Body * ObjectTracker :=
  match deltas with
  | [] => (b, t)
  | d :: rest => let '(b', t') := objectFrame true d id b t in objectRun rest id b' t'
  end.

(** ** Robot frame ([RobotController]) *)

(** What one frame is given: the clock, the props and the shared refs it
    only reads.  [mounted] is [groupRef.current] being set. *)
Record FrameInput := mkInput {
  mounted : bool;
  elapsedTime : Q;
  delta : Q;
  commandQueue : list RobotCommand;
  baseJoints : JointState;
  objectTracker : ObjectTracker;
  keys : Keys }.

(** 1. Rotation. *)
Definition rotate (dt : Q) (i : Intent) (rot : Q) : Q :=
  if nonzero (turn i) then rot + turn i * ROT_SPEED * dt else rot.

(** The body of the loop over the tracked objects, for a candidate
    [(nextX, nextZ)] and the robot's height [robotY]. *)
Definition overlaps (nextX nextZ robotY : Q) (objPos : Vector3) : bool :=
  let dx := nextX - x objPos in
  let dz := nextZ - z objPos in
  let distSq := dx * dx + dz * dz in
  if Qltb distSq (COLLISION_DIST ^ 2) then
    let yDiff := Qabs (robotY - y objPos) in
    Qltb yDiff 0.5
  else false.

(** The loop itself: [collision] becomes true at the first overlapping
    object and the loop breaks there. *)
Fixpoint collision (nextX nextZ robotY : Q) (objs : list Vector3) : bool :=
  match objs with
  | [] => false
  | objPos :: rest =>
      if overlaps nextX nextZ robotY objPos then true
      else collision nextX nextZ robotY rest
  end.

(** 3. Vertical movement: jump, gravity, floor constraint.  Returns the
    new height and vertical velocity. *)
Definition vertical (dt : Q) (i : Intent) (py v : Q) : Q * Q :=
  let onGround := Qle_bool py (GROUND_Y + 0.01) in
  let v0 := if jump i && onGround then JUMP_FORCE else v in
  let v1 := v0 - GRAVITY * dt in
  let y1 := py + v1 * dt in
  if Qltb y1 GROUND_Y then (GROUND_Y, 0) else (y1, v1).

Definition setLegs (j : JointState) (flt flc frt frc blt blc brt brc : Q) : JointState :=
  mkJoints (FL_hip j) flt flc (FR_hip j) frt frc (BL_hip j) blt blc (BR_hip j) brt brc.

Section Simulation.

(** [Math.sin], [Math.cos] and [Math.PI]. *)
Variables (Math_sin Math_cos : Q -> Q) (Math_PI : Q).

(** The candidate next position of step 2. *)
Definition candidate (dt : Q) (i : Intent) (rot : Q) (p : Vector3) : Q * Q :=
  let dirX := Math_sin rot in
  let dirZ := Math_cos rot in
  let moveDist := forward i * MOVE_SPEED * dt in
  (x p + dirX * moveDist, z p + dirZ * moveDist).

(** 2. Horizontal movement and collision detection; [rot] is the yaw
    already updated by step 1. *)
Definition horizontal (t : ObjectTracker) (dt : Q) (i : Intent) (rot : Q) (p : Vector3)
  : Vector3 :=
  if nonzero (forward i) then
    let '(nextX, nextZ) := candidate dt i rot p in
    if collision nextX nextZ (y p) (tracker_values t) then p
    else mkVector3 nextX (y p) nextZ
  else p.

(** The physics update, steps 1 to 3. *)
Definition physics (t : ObjectTracker) (dt : Q) (i : Intent) (s : Pose) : Pose :=
  let rot := rotate dt i (rotation s) in
  let p := horizontal t dt i rot (position s) in
  let '(py, v) := vertical dt i (y p) (verticalVel s) in
  mkPose (mkVector3 (x p) py (z p)) rot v.

(** The animation update: the joints handed to [setRenderedJoints]. *)
Definition animate (time : Q) (base : JointState) (py : Q) (isMoving : bool) : JointState :=
  let isInAir := Qltb (GROUND_Y + 0.1) py in
  if isInAir then
    setLegs base 0.8 (-1.8) 0.8 (-1.8) 0.8 (-1.8) 0.8 (-1.8)
  else if isMoving then
    let p1 := Math_sin (time * GAIT_FREQ) in
    let p2 := Math_sin (time * GAIT_FREQ + Math_PI) in
    let l1 := Qmax 0 p1 * 0.5 in
    let l2 := Qmax 0 p2 * 0.5 in
    setLegs base
      (FL_thigh base + p1 * GAIT_AMP) (FL_calf base - l1)
      (FR_thigh base + p2 * GAIT_AMP) (FR_calf base - l2)
      (BL_thigh base + p2 * GAIT_AMP) (BL_calf base - l2)
      (BR_thigh base + p1 * GAIT_AMP) (BR_calf base - l1)
  else base.

(** The part of the frame after the command logic, for resolved locals. *)
Definition integrate (inp : FrameInput) (e : Exec) (i0 : Intent) (cleared : bool) (r : Robot)
  : Robot * list Event :=
  let i := if negb (isExecuting e) then keyboard (keys inp) i0 else i0 in
  let isMoving := nonzero (forward i) || nonzero (turn i) in
  let s := physics (objectTracker inp) (delta inp) i (pose r) in
  let nextJoints := animate (elapsedTime inp) (baseJoints inp) (y (position s)) isMoving in
  let stats := mkStats (position s) (if isMoving then MOVE_SPEED else 0)
                       (rotation s) isMoving (activeDesc i) in
  (mkRobot s e nextJoints,
   (if cleared then [onClearQueue] else []) ++ [onUpdateStats stats]).

(** One frame of the robot: the callback given to [useFrame]. *)
Definition robotFrame (inp : FrameInput) (r : Robot) : Robot * list Event :=
  if negb (mounted inp) then (r, [])
  else
    match commandLogic (commandQueue inp) (elapsedTime inp) (exec r) with
    | (Returned e target, _) =>
        (mkRobot (pose r) e (renderedJoints r), [onUpdateJoints target])
    | (Resolved e i, cleared) => integrate inp e i cleared r
    end.

(** The locals [forward], [turn], [jump] as the physics update sees them,
    or [None] when the frame returns before reaching it. *)
Definition resolvedIntent (inp : FrameInput) (r : Robot) : option Intent :=
  if negb (mounted inp) then None
  else
    match commandLogic (commandQueue inp) (elapsedTime inp) (exec r) with
    | (Returned _ _, _) => None
    | (Resolved e i, _) =>
        Some (if negb (isExecuting e) then keyboard (keys inp) i else i)
    end.

(** The robot over a sequence of frames. *)
Fixpoint robotRun (frames : list FrameInput) (r : Robot) : Robot :=
  match frames with
  | [] => r
  | inp :: rest => robotRun rest (fst (robotFrame inp r))
  end.

(** [inp] with another key state and everything else the same. *)
Definition withKeys (k : Keys) (inp : FrameInput) : FrameInput :=
  mkInput (mounted inp) (elapsedTime inp) (delta inp) (commandQueue inp)
          (baseJoints inp) (objectTracker inp) k.

(** The squared planar distance of the loop body. *)
Definition distSq (nextX nextZ : Q) (objPos : Vector3) : Q :=
  (nextX - x objPos) * (nextX - x objPos) + (nextZ - z objPos) * (nextZ - z objPos).

(** Some tracked object blocks the candidate: below the planar threshold
    and within 0.5 vertically. *)
Definition blocked (nextX nextZ robotY : Q) (t : ObjectTracker) : Prop :=
  exists objPos, In objPos (tracker_values t) /\
    distSq nextX nextZ objPos < (ROBOT_COLLISION_RADIUS + OBJECT_COLLISION_RADIUS) ^ 2 /\
    Qabs (robotY - y objPos) < 0.5.

(** ** Key handlers and tracker lookup *)

(** The [keyup] handler; [press] above is the [keydown] handler. *)
Definition release (code : string) (k : Keys) : Keys :=
  fun c => if String.eqb c code then false else k c.

(** Reading one entry of the tracker map. *)
Fixpoint tracker_get (id : string) (t : ObjectTracker) : option Vector3 :=
  match t with
  | [] => None
  | (k, v) :: rest => if String.eqb k id then Some v else tracker_get id rest
  end.

Definition tracker_keys (t : ObjectTracker) : list string := map fst t.

(** ** Control panel ([ControlPanel]) *)

(** The joint names the sliders are built from: a leg and a part. *)
Inductive LegName := FL | FR | BL | BR.
Inductive Part := hip | thigh | calf.

Definition getJoint (l : LegName) (p : Part) (j : JointState) : Q :=
  match l, p with
  | FL, hip => FL_hip j | FL, thigh => FL_thigh j | FL, calf => FL_calf j
  | FR, hip => FR_hip j | FR, thigh => FR_thigh j | FR, calf => FR_calf j
  | BL, hip => BL_hip j | BL, thigh => BL_thigh j | BL, calf => BL_calf j
  | BR, hip => BR_hip j | BR, thigh => BR_thigh j | BR, calf => BR_calf j
  end.

(** The spread-and-override of one key. *)
Definition setJoint (l : LegName) (p : Part) (v : Q) (j : JointState) : JointState :=
  let pick l' p' := match l, p, l', p' with
                    | FL, hip, FL, hip | FL, thigh, FL, thigh | FL, calf, FL, calf
                    | FR, hip, FR, hip | FR, thigh, FR, thigh | FR, calf, FR, calf
                    | BL, hip, BL, hip | BL, thigh, BL, thigh | BL, calf, BL, calf
                    | BR, hip, BR, hip | BR, thigh, BR, thigh | BR, calf, BR, calf => v
                    | _, _, _, _ => getJoint l' p' j
                    end in
  mkJoints (pick FL hip) (pick FL thigh) (pick FL calf)
           (pick FR hip) (pick FR thigh) (pick FR calf)
           (pick BL hip) (pick BL thigh) (pick BL calf)
           (pick BR hip) (pick BR thigh) (pick BR calf).

Definition handleSliderChange (l : LegName) (p : Part) (value : Q) (prev : JointState)
  : JointState :=
  setJoint l p value prev.

(** The [min] and [max] attributes of the slider of a part. *)
Definition sliderMin (p : Part) : Q := match p with calf => -2.5 | _ => -1.5 end.
Definition sliderMax (p : Part) : Q := match p with calf => -0.5 | _ => 1.5 end.

(** The pose handed to [setJoints] by a quick action. *)
Definition applyPreset (preset : string) : JointState :=
  if String.eqb preset "WAVE" then
    setJoint FR calf (-0.5) (setJoint FR thigh (-0.5) (setJoint FR hip 0 INITIAL_JOINTS))
  else if String.eqb preset "SIT" then
    setJoint FR calf (-0.8) (setJoint FR thigh (-0.2)
      (setJoint FL calf (-0.8) (setJoint FL thigh (-0.2)
        (setJoint BR calf (-2.0) (setJoint BR thigh 1.0
          (setJoint BL calf (-2.0) (setJoint BL thigh 1.0 INITIAL_JOINTS)))))))
  else if String.eqb preset "POUNCE" then
    setJoint BR calf (-1.0) (setJoint BR thigh 0.2
      (setJoint BL calf (-1.0) (setJoint BL thigh 0.2
        (setJoint FR calf (-2.5) (setJoint FR thigh 1.2
          (setJoint FL calf (-2.5) (setJoint FL thigh 1.2 INITIAL_JOINTS)))))))
  else INITIAL_JOINTS.

(** The joint limits the planner is told to respect for SET_JOINTS. *)
Definition plannerMin (p : Part) : Q :=
  match p with hip => -0.5 | thigh => -1.0 | calf => -2.5 end.
Definition plannerMax (p : Part) : Q :=
  match p with hip => 0.5 | thigh => 1.5 | calf => -0.5 end.

(** [inp] with another tracker and everything else the same. *)
Definition withTracker (t : ObjectTracker) (inp : FrameInput) : FrameInput :=
  mkInput (mounted inp) (elapsedTime inp) (delta inp) (commandQueue inp)
          (baseJoints inp) t (keys inp).

(** A command that completes in the frame that starts it. *)
Definition instant (cmd : RobotCommand) : Prop :=
  type cmd = "JUMP"%string \/
  (type cmd = "SET_JOINTS"%string /\ targetJoints cmd <> None).

(** The direction a timed command asks for while it runs. *)
Definition commandForward (cmd : RobotCommand) : Q :=
  if String.eqb (type cmd) "MOVE_BACKWARD" then -1
  else if String.eqb (type cmd) "MOVE_FORWARD" then 1 else 0.
Definition commandTurn (cmd : RobotCommand) : Q :=
  if String.eqb (type cmd) "TURN_RIGHT" then -1
  else if String.eqb (type cmd) "TURN_LEFT" then 1 else 0.

(** The height reached after [n] frames of free fall of length [dt] from
    height [y0] and vertical velocity [v0], were there no ground. *)
Definition fallHeight (y0 v0 dt : Q) (n : nat) : Q :=
  let k := inject_Z (Z.of_nat n) in
  y0 + k * dt * v0 - GRAVITY * dt * dt * (k * (k + 1)) * (1 # 2).

(** A frame driven by hand in which J is not held, of length [dt]. *)
Definition coasting (dt : Q) (inp : FrameInput) : Prop :=
  mounted inp = true /\ delta inp = dt /\ keys inp "KeyJ"%string = false.

(** ** Sample scenarios *)

(** A 60 Hz frame at clock time [now]. *)
Definition frame60 (now : Q) (q : list RobotCommand) (t : ObjectTracker) (k : Keys)
  : FrameInput :=
  mkInput true now (1 # 60) q INITIAL_JOINTS t k.

(** A robot at rest on the ground that has just been handed the queue [q]. *)
Definition grounded (q : list RobotCommand) : Robot :=
  mkRobot (mkPose (mkVector3 0 GROUND_Y 0) 0 0) (installQueue q initial_exec) INITIAL_JOINTS.

(** The robot as the component creates it, handed the queue [q]. *)
Definition dropped (q : list RobotCommand) : Robot :=
  mkRobot initial_pose (installQueue q initial_exec) INITIAL_JOINTS.

Definition jump_queue : list RobotCommand := [mkCommand "JUMP" None None None].
Definition forward_queue : list RobotCommand :=
  [mkCommand "MOVE_FORWARD" (Some 2.0) None (Some "walk"%string)].
Definition wait_queue : list RobotCommand := [mkCommand "WAIT" (Some 2.0) None None].
Definition pose_queue (target : JointState) : list RobotCommand :=
  [mkCommand "SET_JOINTS" None (Some target) None].
Definition broken_queue : list RobotCommand :=
  [mkCommand "SET_JOINTS" None None None; mkCommand "JUMP" None None None].

Definition crouch : JointState :=
  mkJoints 0 1.0 (-2.0) 0 1.0 (-2.0) 0 1.0 (-2.0) 0 1.0 (-2.0).

(** A cube resting half a metre ahead of the origin. *)
Definition cube_ahead : ObjectTracker := [("cube_red"%string, mkVector3 0 0.15 0.5)].

(** A cube falling towards the floor. *)
Definition falling_cube : Body := mkBody (mkVector3 2.0 0.2 2.0) (-4).

Definition instant_queue : list RobotCommand :=
  [mkCommand "JUMP" None None None;
   mkCommand "SET_JOINTS" None (Some crouch) None;
   mkCommand "JUMP" None None None].

(** A frame of the given clock and length with nothing queued and an empty
    field, driven by the keys [k]. *)
Definition manual_frame (now dt : Q) (k : Keys) : FrameInput :=
  mkInput true now dt [] INITIAL_JOINTS [] k.

(** A cube declared below the floor. *)
Definition sunk_cube : Vector3 := mkVector3 1 0.05 1.

(** * Properties *)

(** ** Comparisons *)

Lemma Qltb_true (a b : Q) : Qltb a b = true <-> a < b.
Proof.
  unfold Qltb. rewrite negb_true_iff.
  split; intro H.
  - apply Qnot_le_lt. intro Hle. apply Qle_bool_iff in Hle. congruence.
  - destruct (Qle_bool b a) eqn:E; [|reflexivity].
    apply Qle_bool_iff in E. lra.
Qed.

Lemma Qltb_false (a b : Q) : Qltb a b = false <-> b <= a.
Proof.
  unfold Qltb. rewrite negb_false_iff. apply Qle_bool_iff.
Qed.

Lemma nonzero_false (a : Q) : nonzero a = false <-> a == 0.
Proof.
  unfold nonzero. rewrite negb_false_iff. apply Qeq_bool_iff.
Qed.

Lemma nonzero_true (a : Q) : nonzero a = true <-> ~ a == 0.
Proof.
  unfold nonzero. rewrite negb_true_iff. split.
  - intros H E. apply Qeq_bool_iff in E. congruence.
  - intro H. destruct (Qeq_bool a 0) eqn:E; [|reflexivity].
    apply Qeq_bool_iff in E. contradiction.
Qed.

(** ** The collision loop *)

Lemma overlaps_true (nextX nextZ robotY : Q) (o : Vector3) :
  overlaps nextX nextZ robotY o = true <->
  distSq nextX nextZ o < COLLISION_DIST ^ 2 /\ Qabs (robotY - y o) < 0.5.
Proof.
  unfold overlaps, distSq.
  destruct (Qltb _ (COLLISION_DIST ^ 2)) eqn:E.
  - apply Qltb_true in E. rewrite Qltb_true. tauto.
  - apply Qltb_false in E. split; [discriminate|].
    intros [H _]. exfalso. exact (Qlt_not_le _ _ H E).
Qed.

Lemma collision_true (nextX nextZ robotY : Q) (t : ObjectTracker) :
  collision nextX nextZ robotY (tracker_values t) = true <-> blocked nextX nextZ robotY t.
Proof.
  unfold blocked. generalize (tracker_values t) as objs.
  induction objs as [|o rest IH]; simpl.
  - split; [discriminate|]. intros [o [[] _]].
  - destruct (overlaps nextX nextZ robotY o) eqn:E.
    + split; [|reflexivity]. intros _. exists o.
      apply overlaps_true in E. split; [now left|exact E].
    + rewrite IH. split.
      * intros [o' [Hin H]]. exists o'. split; [now right|exact H].
      * intros [o' [[->|Hin] H]].
        -- apply overlaps_true in H. congruence.
        -- exists o'. split; assumption.
Qed.

(** ** The vertical step *)

Lemma vertical_cases (dt : Q) (i : Intent) (py v : Q) :
  let v0 := if jump i && Qle_bool py (GROUND_Y + 0.01) then JUMP_FORCE else v in
  let v1 := v0 - GRAVITY * dt in
  let y1 := py + v1 * dt in
  (y1 < GROUND_Y /\ vertical dt i py v = (GROUND_Y, 0)) \/
  (GROUND_Y <= y1 /\ vertical dt i py v = (y1, v1)).
Proof.
  intros v0 v1 y1. unfold vertical. fold v0. fold v1. fold y1.
  destruct (Qltb y1 GROUND_Y) eqn:E.
  - left. apply Qltb_true in E. split; [exact E|reflexivity].
  - right. apply Qltb_false in E. split; [exact E|reflexivity].
Qed.

Lemma vertical_above_ground (dt : Q) (i : Intent) (py v : Q) :
  GROUND_Y <= fst (vertical dt i py v).
Proof.
  destruct (vertical_cases dt i py v) as [[_ ->]|[H ->]]; simpl; [lra|exact H].
Qed.

(** ** Frames that reach the physics update, and frames that do not *)

Lemma frame_with_intent (inp : FrameInput) (r : Robot) (i : Intent) :
  resolvedIntent inp r = Some i ->
  pose (fst (robotFrame inp r)) = physics (objectTracker inp) (delta inp) i (pose r) /\
  renderedJoints (fst (robotFrame inp r)) =
    animate (elapsedTime inp) (baseJoints inp)
            (y (position (physics (objectTracker inp) (delta inp) i (pose r))))
            (nonzero (forward i) || nonzero (turn i)).
Proof.
  unfold resolvedIntent, robotFrame.
  destruct (mounted inp); simpl; [|discriminate].
  destruct (commandLogic _ _ _) as [[e target|e i0] cleared]; [discriminate|].
  intros [= <-]. unfold integrate. simpl. split; reflexivity.
Qed.

Lemma frame_without_intent (inp : FrameInput) (r : Robot) :
  resolvedIntent inp r = None ->
  pose (fst (robotFrame inp r)) = pose r /\
  renderedJoints (fst (robotFrame inp r)) = renderedJoints r.
Proof.
  unfold resolvedIntent, robotFrame.
  destruct (mounted inp); simpl; [|split; reflexivity].
  destruct (commandLogic _ _ _) as [[e target|e i0] cleared]; [|discriminate].
  intros _. simpl. split; reflexivity.
Qed.

Lemma physics_height (t : ObjectTracker) (dt : Q) (i : Intent) (s : Pose) :
  y (position (physics t dt i s)) = fst (vertical dt i (y (position s)) (verticalVel s)) /\
  verticalVel (physics t dt i s) = snd (vertical dt i (y (position s)) (verticalVel s)).
Proof.
  unfold physics.
  assert (Hy : y (horizontal t dt i (rotate dt i (rotation s)) (position s)) = y (position s)).
  { unfold horizontal. destruct (nonzero (forward i)); [|reflexivity].
    destruct (candidate _ _ _ _) as [nx nz].
    destruct (collision _ _ _ _); reflexivity. }
  rewrite Hy. destruct (vertical _ _ _ _) as [py v]. simpl. split; reflexivity.
Qed.

Lemma frame_above_ground (inp : FrameInput) (r : Robot) :
  GROUND_Y <= y (position (pose r)) ->
  GROUND_Y <= y (position (pose (fst (robotFrame inp r)))).
Proof.
  intro H. destruct (resolvedIntent inp r) as [i|] eqn:E.
  - destruct (frame_with_intent inp r i E) as [-> _].
    destruct (physics_height (objectTracker inp) (delta inp) i (pose r)) as [-> _].
    apply vertical_above_ground.
  - destruct (frame_without_intent inp r E) as [-> _]. exact H.
Qed.

(** ** The claims *)

(** C2. On a frame whose forward intent is nonzero, the candidate (x,z) is
    committed when no tracked object is both strictly nearer than
    ROBOT_RADIUS+OBJECT_RADIUS in the plane (squared distances compared)
    and strictly nearer than 0.5 vertically; when such an object exists
    x and z keep their old values; objects exactly at the threshold
    distance do not block. *)
Theorem C2_collision_gate (inp : FrameInput) (r : Robot) (i : Intent) :
  resolvedIntent inp r = Some i ->
  ~ forward i == 0 ->
  let p := position (pose r) in
  let p' := position (pose (fst (robotFrame inp r))) in
  let next := candidate (delta inp) i (rotate (delta inp) i (rotation (pose r))) p in
  (~ blocked (fst next) (snd next) (y p) (objectTracker inp) ->
     x p' = fst next /\ z p' = snd next) /\
  (blocked (fst next) (snd next) (y p) (objectTracker inp) ->
     x p' = x p /\ z p' = z p) /\
  ((forall o, In o (tracker_values (objectTracker inp)) ->
      distSq (fst next) (snd next) o == (ROBOT_COLLISION_RADIUS + OBJECT_COLLISION_RADIUS) ^ 2) ->
     x p' = fst next /\ z p' = snd next).
Proof.
  intros Hi Hf p p' next.
  destruct (frame_with_intent inp r i Hi) as [Hp _].
  assert (Hcommit : collision (fst next) (snd next) (y p) (tracker_values (objectTracker inp)) = false ->
                    x p' = fst next /\ z p' = snd next).
  { intro Hc. subst p'. rewrite Hp. unfold physics, horizontal.
    apply nonzero_true in Hf. rewrite Hf. fold p. fold next.
    destruct next as [nx nz]. simpl in Hc |- *. rewrite Hc.
    destruct (vertical _ _ _ _); simpl. split; reflexivity. }
  assert (Hreject : collision (fst next) (snd next) (y p) (tracker_values (objectTracker inp)) = true ->
                    x p' = x p /\ z p' = z p).
  { intro Hc. subst p'. rewrite Hp. unfold physics, horizontal.
    apply nonzero_true in Hf. rewrite Hf. fold p. fold next.
    destruct next as [nx nz]. simpl in Hc |- *. rewrite Hc.
    destruct (vertical _ _ _ _); simpl. split; reflexivity. }
  repeat split.
  - apply Hcommit. destruct (collision _ _ _ _) eqn:E; [|reflexivity].
    apply collision_true in E. contradiction.
  - apply Hcommit. destruct (collision _ _ _ _) eqn:E; [|reflexivity].
    apply collision_true in E. contradiction.
  - apply Hreject. apply collision_true. assumption.
  - apply Hreject. apply collision_true. assumption.
  - apply Hcommit. destruct (collision _ _ _ _) eqn:E; [|reflexivity].
    apply collision_true in E. destruct E as [o [Hin [Hd _]]].
    specialize (H o Hin). exfalso.
    rewrite H in Hd. exact (Qlt_irrefl _ Hd).
  - apply Hcommit. destruct (collision _ _ _ _) eqn:E; [|reflexivity].
    apply collision_true in E. destruct E as [o [Hin [Hd _]]].
    specialize (H o Hin). exfalso.
    rewrite H in Hd. exact (Qlt_irrefl _ Hd).
Qed.

(** C7. On a frame whose resolved intent is forward=0, turn=0, jump=false,
    x, z and yaw are unchanged; the height and vertical velocity follow
    gravity, and when the ground clamp fires the height is GROUND_Y and the
    vertical velocity is zero. *)
Theorem C7_idle_frame (inp : FrameInput) (r : Robot) (i : Intent) :
  resolvedIntent inp r = Some i ->
  forward i == 0 -> turn i == 0 -> jump i = false ->
  let s := pose r in
  let s' := pose (fst (robotFrame inp r)) in
  let v1 := verticalVel s - GRAVITY * delta inp in
  let y1 := y (position s) + v1 * delta inp in
  x (position s') = x (position s) /\
  z (position s') = z (position s) /\
  rotation s' = rotation s /\
  (y1 < GROUND_Y -> y (position s') = GROUND_Y /\ verticalVel s' = 0) /\
  (GROUND_Y <= y1 -> y (position s') = y1 /\ verticalVel s' = v1).
Proof.
  intros Hi Hf Ht Hj. cbv zeta.
  destruct (frame_with_intent inp r i Hi) as [Hp _]. rewrite Hp.
  apply nonzero_false in Hf. apply nonzero_false in Ht.
  split; [|split; [|split]].
  - unfold physics, horizontal. rewrite Hf. destruct (vertical _ _ _ _); reflexivity.
  - unfold physics, horizontal. rewrite Hf. destruct (vertical _ _ _ _); reflexivity.
  - unfold physics, rotate. rewrite Ht. destruct (vertical _ _ _ _); reflexivity.
  - destruct (physics_height (objectTracker inp) (delta inp) i (pose r)) as [Hy Hv].
    rewrite Hy, Hv.
    pose proof (vertical_cases (delta inp) i (y (position (pose r))) (verticalVel (pose r))) as Hc.
    rewrite Hj in Hc. simpl in Hc.
    split.
    + intro Hlt. destruct Hc as [[_ ->]|[Hge _]]; [split; reflexivity|lra].
    + intro Hge. destruct Hc as [[Hlt _]|[_ ->]]; [lra|split; reflexivity].
Qed.

(** C10. If the robot's height is at least GROUND_Y before a sequence of
    frames, it is at least GROUND_Y after each of them; in particular from
    the initial height. *)
Theorem C10_ground_invariant (frames : list FrameInput) (r : Robot) :
  GROUND_Y <= y (position (pose r)) ->
  GROUND_Y <= y (position (pose (robotRun frames r))).
Proof.
  revert r. induction frames as [|inp rest IH]; intros r H; simpl.
  - exact H.
  - apply IH. apply frame_above_ground. exact H.
Qed.

(** ** The command branch keeps [isExecuting] *)

Lemma runCommand_executing (cmd : RobotCommand) (now : Q) (e : Exec) :
  match runCommand cmd now e with
  | Returned e' _ => isExecuting e' = isExecuting e
  | Resolved e' _ => isExecuting e' = isExecuting e
  end.
Proof.
  unfold runCommand.
  destruct (Qeq_bool (cmdStartTime e) 0); simpl;
    destruct (String.eqb (type cmd) "SET_JOINTS"); simpl;
    destruct (targetJoints cmd); simpl;
    destruct (String.eqb (type cmd) "JUMP"); simpl;
    try destruct (Qltb _ _); reflexivity.
Qed.

Lemma commandLogic_in_bounds (q : list RobotCommand) (now : Q) (e : Exec) :
  isExecuting e = true -> (cmdIndex e < length q)%nat ->
  exists cmd, nth_error q (cmdIndex e) = Some cmd /\
              commandLogic q now e = (runCommand cmd now e, false).
Proof.
  intros He Hlt. unfold commandLogic. rewrite He.
  apply Nat.ltb_lt in Hlt. rewrite Hlt. simpl.
  destruct (nth_error q (cmdIndex e)) as [cmd|] eqn:E.
  - exists cmd. split; reflexivity.
  - apply nth_error_None in E. apply Nat.ltb_lt in Hlt. lia.
Qed.

(** C9. While a queue is executing and the command index is within the
    queue, the held keys do not reach the frame: two runs of the frame
    that differ only in the key state end in the same position, yaw,
    vertical velocity and command state, and make the same calls. *)
Theorem C9_keys_ignored_while_executing
  (inp : FrameInput) (k1 k2 : Keys) (r : Robot) :
  isExecuting (exec r) = true ->
  (cmdIndex (exec r) < length (commandQueue inp))%nat ->
  let r1 := fst (robotFrame (withKeys k1 inp) r) in
  let r2 := fst (robotFrame (withKeys k2 inp) r) in
  position (pose r1) = position (pose r2) /\
  rotation (pose r1) = rotation (pose r2) /\
  verticalVel (pose r1) = verticalVel (pose r2) /\
  exec r1 = exec r2 /\
  robotFrame (withKeys k1 inp) r = robotFrame (withKeys k2 inp) r.
Proof.
  intros He Hlt.
  assert (Heq : robotFrame (withKeys k1 inp) r = robotFrame (withKeys k2 inp) r).
  { unfold robotFrame. simpl.
    destruct (mounted inp); simpl; [|reflexivity].
    destruct (commandLogic_in_bounds (commandQueue inp) (elapsedTime inp) (exec r) He Hlt)
      as [cmd [_ ->]].
    pose proof (runCommand_executing cmd (elapsedTime inp) (exec r)) as Hk.
    destruct (runCommand cmd (elapsedTime inp) (exec r)) as [e target|e i]; [reflexivity|].
    unfold integrate. simpl. rewrite Hk, He. reflexivity. }
  cbv zeta. rewrite Heq. repeat split; reflexivity.
Qed.

(** C3. Installing a queue restarts execution (index 0, start time 0,
    executing) exactly when its length is positive and differs from
    lastQueueLength; otherwise index and start time are kept, so a queue of
    the same length does not reset the index; an empty queue forces
    isExecuting to false; the length is remembered in every case. *)
Theorem C3_queue_admission (q : list RobotCommand) (e : Exec) :
  let e' := installQueue q e in
  let restart := (length q <> lastQueueLength e /\ 0 < length q)%nat in
  lastQueueLength e' = length q /\
  (restart -> cmdIndex e' = 0%nat /\ cmdStartTime e' = 0 /\ isExecuting e' = true) /\
  (~ restart -> cmdIndex e' = cmdIndex e /\ cmdStartTime e' = cmdStartTime e /\
                isExecuting e' = match length q with O => false | S _ => isExecuting e end) /\
  (length q = lastQueueLength e -> cmdIndex e' = cmdIndex e) /\
  (length q = 0%nat -> isExecuting e' = false).
Proof.
  cbv zeta. unfold installQueue.
  destruct (Nat.ltb_spec 0 (length q)) as [Hpos|Hpos];
    destruct (Nat.eqb_spec (length q) (lastQueueLength e)) as [Hsame|Hsame];
    destruct (Nat.eqb_spec (length q) 0) as [Hzero|Hzero]; simpl;
    (split; [reflexivity|]);
    (split; [intros [H1 H2]; try lia; repeat split; reflexivity|]);
    (split; [intro Hn; try (exfalso; apply Hn; split; lia);
             destruct (length q); try lia; repeat split; reflexivity|]);
    (split; [intro H1; try lia; reflexivity|]);
    intro H1; try lia; reflexivity.
Qed.

(** ** Frames that start a SET_JOINTS command *)

Lemma set_joints_frame (inp : FrameInput) (r : Robot) (cmd : RobotCommand) (target : JointState) :
  mounted inp = true ->
  isExecuting (exec r) = true ->
  nth_error (commandQueue inp) (cmdIndex (exec r)) = Some cmd ->
  cmdStartTime (exec r) == 0 ->
  type cmd = "SET_JOINTS"%string ->
  targetJoints cmd = Some target ->
  robotFrame inp r =
    (mkRobot (pose r) (advance (stamp (elapsedTime inp) (exec r))) (renderedJoints r),
     [onUpdateJoints target]).
Proof.
  intros Hm He Hn Hs Ht Hj. unfold robotFrame. rewrite Hm. simpl.
  assert (Hlt : (cmdIndex (exec r) < length (commandQueue inp))%nat).
  { apply nth_error_Some. congruence. }
  destruct (commandLogic_in_bounds (commandQueue inp) (elapsedTime inp) (exec r) He Hlt)
    as [cmd' [Hn' ->]].
  assert (cmd' = cmd) by congruence. subst cmd'.
  unfold runCommand. apply Qeq_bool_iff in Hs. rewrite Hs, Ht, Hj. reflexivity.
Qed.

(** C1. The frame that starts a SET_JOINTS command returns before the
    physics update: a robot in the air keeps its height and vertical
    velocity for that frame, although gravity alone would have changed
    both. *)
Theorem C1_set_joints_frame_skips_physics :
  let q := [mkCommand "SET_JOINTS" None (Some INITIAL_JOINTS) None] in
  let r := mkRobot initial_pose (installQueue q initial_exec) INITIAL_JOINTS in
  let inp := mkInput true 1 (1 # 60) q INITIAL_JOINTS [] no_keys in
  resolvedIntent inp r = None /\
  pose (fst (robotFrame inp r)) = initial_pose /\
  cmdIndex (exec (fst (robotFrame inp r))) = 1%nat /\
  verticalVel (physics [] (1 # 60) idle initial_pose) == - (1 # 3) /\
  y (position (physics [] (1 # 60) idle initial_pose)) == 2 - (1 # 180).
Proof.
  cbv zeta. repeat split; vm_compute; reflexivity.
Qed.

(** ** Malformed commands *)

(** An unknown tag is handled by the timed branch: nothing is asked of the
    robot while the duration runs, and the slot is consumed once it is
    over. *)
Lemma unknown_type_is_timed (cmd : RobotCommand) (now : Q) (e : Exec) :
  type cmd <> "SET_JOINTS"%string -> type cmd <> "JUMP"%string ->
  type cmd <> "MOVE_FORWARD"%string -> type cmd <> "MOVE_BACKWARD"%string ->
  type cmd <> "TURN_LEFT"%string -> type cmd <> "TURN_RIGHT"%string ->
  let start := if Qeq_bool (cmdStartTime e) 0 then now else cmdStartTime e in
  (now - start < duration_or_default cmd ->
     runCommand cmd now e =
       Resolved (mkExec (cmdIndex e) start (isExecuting e) (lastQueueLength e))
                (mkIntent 0 0 false (description_or_type cmd))) /\
  (duration_or_default cmd <= now - start ->
     runCommand cmd now e =
       Resolved (mkExec (S (cmdIndex e)) 0 (isExecuting e) (lastQueueLength e))
                (mkIntent 0 0 false (description_or_type cmd))).
Proof.
  intros H1 H2 H3 H4 H5 H6 start. unfold runCommand.
  apply String.eqb_neq in H1, H2, H3, H4, H5, H6.
  rewrite H1, H2, H3, H4, H5, H6. rewrite !andb_false_r. simpl.
  subst start. split; intro H.
  - destruct (Qeq_bool (cmdStartTime e) 0); simpl;
      (apply Qltb_true in H; rewrite H); [reflexivity|destruct e; reflexivity].
  - destruct (Qeq_bool (cmdStartTime e) 0); simpl;
      (apply Qltb_false in H; rewrite H); reflexivity.
Qed.

Lemma stalled_frame (inp : FrameInput) (r : Robot) (cmd : RobotCommand) :
  nth_error (commandQueue inp) (cmdIndex (exec r)) = Some cmd ->
  type cmd = "SET_JOINTS"%string ->
  targetJoints cmd = None ->
  isExecuting (exec r) = true ->
  cmdIndex (exec (fst (robotFrame inp r))) = cmdIndex (exec r) /\
  isExecuting (exec (fst (robotFrame inp r))) = true.
Proof.
  intros Hn Ht Hj He. unfold robotFrame.
  destruct (mounted inp); simpl; [|split; [reflexivity|exact He]].
  assert (Hlt : (cmdIndex (exec r) < length (commandQueue inp))%nat).
  { apply nth_error_Some. congruence. }
  destruct (commandLogic_in_bounds (commandQueue inp) (elapsedTime inp) (exec r) He Hlt)
    as [cmd' [Hn' ->]].
  assert (cmd' = cmd) by congruence. subst cmd'.
  unfold runCommand. rewrite Ht, Hj. simpl. rewrite andb_false_r.
  destruct (Qeq_bool (cmdStartTime (exec r)) 0); simpl; split; (reflexivity || exact He).
Qed.

(** C4. A SET_JOINTS command without targetJoints is never consumed: as
    long as it sits at the command index, the index stays where it is and
    the queue stays executing, whatever the clock and however many frames
    run. *)
Theorem C4_set_joints_without_target_stalls
  (frames : list FrameInput) (r : Robot) (cmd : RobotCommand) :
  Forall (fun inp => nth_error (commandQueue inp) (cmdIndex (exec r)) = Some cmd) frames ->
  type cmd = "SET_JOINTS"%string ->
  targetJoints cmd = None ->
  isExecuting (exec r) = true ->
  cmdIndex (exec (robotRun frames r)) = cmdIndex (exec r) /\
  isExecuting (exec (robotRun frames r)) = true.
Proof.
  intros Hall Ht Hj. revert r Hall.
  induction frames as [|inp rest IH]; intros r Hall He; simpl.
  - split; [reflexivity|exact He].
  - inversion Hall as [|? ? Hinp Hrest]; subst.
    destruct (stalled_frame inp r cmd Hinp Ht Hj He) as [Hidx Hex].
    destruct (IH (fst (robotFrame inp r))) as [H1 H2].
    + rewrite Hidx. exact Hrest.
    + exact Hex.
    + split; [congruence|exact H2].
Qed.

(** ** Jumping *)

Lemma off_ground (py : Q) : GROUND_Y + 0.01 < py -> Qle_bool py (GROUND_Y + 0.01) = false.
Proof.
  intro H. destruct (Qle_bool py (GROUND_Y + 0.01)) eqn:E; [|reflexivity].
  apply Qle_bool_iff in E. lra.
Qed.

Lemma on_ground (py : Q) : py == GROUND_Y -> Qle_bool py (GROUND_Y + 0.01) = true.
Proof.
  intro H. apply Qle_bool_iff. rewrite H. unfold GROUND_Y. lra.
Qed.

(** C5 (amended). A jump intent on a frame that starts at height GROUND_Y,
    with a frame time between 0 and 0.4 s, leaves the vertical velocity at
    JUMP_FORCE - GRAVITY*delta; and on every later frame with a
    non-negative frame time that starts off the ground (above
    GROUND_Y+0.01) and ends above GROUND_Y the vertical velocity does not
    increase, and strictly decreases when the frame time is positive and
    the frame reaches the physics update. *)
Theorem C5_jump_velocity (inp : FrameInput) (r : Robot) (i : Intent) :
  resolvedIntent inp r = Some i ->
  jump i = true ->
  y (position (pose r)) == GROUND_Y ->
  0 <= delta inp -> delta inp <= 0.4 ->
  verticalVel (pose (fst (robotFrame inp r))) = JUMP_FORCE - GRAVITY * delta inp /\
  forall (later : FrameInput) (r' : Robot),
    0 <= delta later ->
    GROUND_Y + 0.01 < y (position (pose r')) ->
    GROUND_Y < y (position (pose (fst (robotFrame later r')))) ->
    verticalVel (pose (fst (robotFrame later r'))) <= verticalVel (pose r') /\
    (0 < delta later -> resolvedIntent later r' <> None ->
     verticalVel (pose (fst (robotFrame later r'))) < verticalVel (pose r')).
Proof.
  intros Hi Hj Hy H0 H1. split.
  - destruct (frame_with_intent inp r i Hi) as [-> _].
    destruct (physics_height (objectTracker inp) (delta inp) i (pose r)) as [_ ->].
    pose proof (vertical_cases (delta inp) i (y (position (pose r))) (verticalVel (pose r))) as Hc.
    rewrite Hj, (on_ground _ Hy) in Hc. simpl in Hc.
    destruct Hc as [[Hlt _]|[_ ->]]; [|reflexivity].
    exfalso. rewrite Hy in Hlt. unfold JUMP_FORCE, GRAVITY in Hlt.
    assert (0 <= (8.0 - 20.0 * delta inp) * delta inp).
    { apply Qmult_le_0_compat; lra. }
    lra.
  - intros later r' Hd Hair Hend.
    destruct (resolvedIntent later r') as [i'|] eqn:E.
    + destruct (frame_with_intent later r' i' E) as [Hp _]. rewrite Hp in *.
      destruct (physics_height (objectTracker later) (delta later) i' (pose r')) as [Hy' Hv'].
      rewrite Hy' in Hend. rewrite Hv'.
      pose proof (vertical_cases (delta later) i' (y (position (pose r'))) (verticalVel (pose r'))) as Hc.
      rewrite (off_ground _ Hair), andb_false_r in Hc. simpl in Hc.
      destruct Hc as [[_ Hc]|[_ Hc]]; rewrite Hc in *; simpl in *.
      * exfalso. lra.
      * unfold GRAVITY. split; [lra|intros; lra].
    + destruct (frame_without_intent later r' E) as [-> _].
      split; [lra|intros _ Hn; congruence].
Qed.

(** ** The object integrator *)

Lemma rest_is_permanent (deltas : list Q) (id : string) (a c : Q) (t : ObjectTracker) :
  objectRun deltas id (mkBody (mkVector3 a 0.15 c) 0) t =
    (mkBody (mkVector3 a 0.15 c) 0, t).
Proof.
  induction deltas as [|d rest IH]; simpl; [reflexivity|exact IH].
Qed.

(** C6. On an integrating frame of an object whose integrated height falls
    below 0.15, the height is set to 0.15 and the velocity becomes the
    impact velocity reversed and scaled by 0.4; when that rebound is slower
    than 0.5 the velocity is zero instead, and from then on no frame of any
    length changes the object again. *)
Theorem C6_bounce_and_rest (dt : Q) (id : string) (b : Body) (t : ObjectTracker) :
  0.1501 < y (pos b) \/ 0.01 < Qabs (velocity b) ->
  y (pos b) + (velocity b - GRAVITY * dt) * dt < 0.15 ->
  let impact := velocity b - GRAVITY * dt in
  let b' := fst (objectFrame true dt id b t) in
  y (pos b') = 0.15 /\
  (0.5 <= Qabs (- impact * 0.4) -> velocity b' = - impact * 0.4) /\
  (Qabs (- impact * 0.4) < 0.5 ->
     velocity b' = 0 /\
     forall deltas t', objectRun deltas id b' t' = (b', t')).
Proof.
  intros Hgate Hpen. cbv zeta.
  assert (Hg : Qltb 0.1501 (y (pos b)) || Qltb 0.01 (Qabs (velocity b)) = true).
  { apply orb_true_iff. destruct Hgate as [H|H]; [left|right]; apply Qltb_true; exact H. }
  unfold objectFrame. simpl negb. cbv iota. rewrite Hg.
  unfold bounce. apply Qltb_true in Hpen. rewrite Hpen.
  destruct (Qltb (Qabs (- (velocity b - GRAVITY * dt) * 0.4)) 0.5) eqn:E; simpl.
  - apply Qltb_true in E. split; [reflexivity|]. split.
    + intro H. exfalso. exact (Qlt_not_le _ _ E H).
    + intros _. split; [reflexivity|]. intros deltas t'. apply rest_is_permanent.
  - apply Qltb_false in E. split; [reflexivity|]. split.
    + intros _. reflexivity.
    + intro H. exfalso. exact (Qlt_not_le _ _ H E).
Qed.

(** ** The gait overlay *)

(** X23. On a frame that reaches the animation update (mounted, and not
    the frame that starts a SET_JOINTS command) the rendered pose is a
    function of the base pose of that frame alone: hips are the base hips;
    in the air (height above GROUND_Y+0.1) every thigh is 0.8 and every
    calf -1.8; otherwise, when moving, FL and BR use p1 = sin(t*GAIT_FREQ),
    FR and BL use p2 = sin(t*GAIT_FREQ+PI), thighs are base + p*GAIT_AMP
    and calves are base - max(0,p)*0.5; otherwise the rendered pose is the
    base pose. *)
Theorem gait_overlay_on_animated_frames (inp : FrameInput) (r : Robot) (i : Intent) :
  resolvedIntent inp r = Some i ->
  let J := renderedJoints (fst (robotFrame inp r)) in
  let B := baseJoints inp in
  let py := y (position (pose (fst (robotFrame inp r)))) in
  let p1 := Math_sin (elapsedTime inp * GAIT_FREQ) in
  let p2 := Math_sin (elapsedTime inp * GAIT_FREQ + Math_PI) in
  (FL_hip J = FL_hip B /\ FR_hip J = FR_hip B /\ BL_hip J = BL_hip B /\ BR_hip J = BR_hip B) /\
  (GROUND_Y + 0.1 < py ->
     FL_thigh J = 0.8 /\ FR_thigh J = 0.8 /\ BL_thigh J = 0.8 /\ BR_thigh J = 0.8 /\
     FL_calf J = -1.8 /\ FR_calf J = -1.8 /\ BL_calf J = -1.8 /\ BR_calf J = -1.8) /\
  (py <= GROUND_Y + 0.1 -> ~ forward i == 0 \/ ~ turn i == 0 ->
     FL_thigh J = FL_thigh B + p1 * GAIT_AMP /\ BR_thigh J = BR_thigh B + p1 * GAIT_AMP /\
     FR_thigh J = FR_thigh B + p2 * GAIT_AMP /\ BL_thigh J = BL_thigh B + p2 * GAIT_AMP /\
     FL_calf J = FL_calf B - Qmax 0 p1 * 0.5 /\ BR_calf J = BR_calf B - Qmax 0 p1 * 0.5 /\
     FR_calf J = FR_calf B - Qmax 0 p2 * 0.5 /\ BL_calf J = BL_calf B - Qmax 0 p2 * 0.5) /\
  (py <= GROUND_Y + 0.1 -> forward i == 0 -> turn i == 0 -> J = B).
Proof.
  intros Hi. cbv zeta.
  destruct (frame_with_intent inp r i Hi) as [Hp ->]. rewrite Hp.
  set (py := y (position (physics (objectTracker inp) (delta inp) i (pose r)))).
  unfold animate.
  destruct (Qltb (GROUND_Y + 0.1) py) eqn:Eair.
  - apply Qltb_true in Eair. split; [repeat split; reflexivity|]. split; [|split].
    + intros _. repeat split; reflexivity.
    + intro H. exfalso. lra.
    + intro H. exfalso. lra.
  - apply Qltb_false in Eair.
    destruct (nonzero (forward i) || nonzero (turn i)) eqn:Emove.
    + split; [repeat split; reflexivity|]. split; [|split].
      * intro H. exfalso. lra.
      * intros _ _. repeat split; reflexivity.
      * intros _ Hf Ht. apply nonzero_false in Hf, Ht. rewrite Hf, Ht in Emove. discriminate.
    + split; [repeat split; reflexivity|]. split; [|split].
      * intro H. exfalso. lra.
      * apply orb_false_iff in Emove. destruct Emove as [Hf Ht].
        apply nonzero_false in Hf, Ht. intros _ [H|H]; contradiction.
      * intros _ _ _. reflexivity.
Qed.

(** C8. The frame that starts a SET_JOINTS command returns before the
    animation update, so the overlay is not recomputed on it: in a queue
    of two SET_JOINTS commands the second frame, with the robot standing
    still on the ground and the base pose already replaced by the first
    target, keeps the pose rendered from the old base, where the animation
    update would have rendered the new base unchanged. *)
Theorem C8_set_joints_frame_keeps_stale_pose :
  let q := [mkCommand "SET_JOINTS" None (Some crouch) None;
            mkCommand "SET_JOINTS" None (Some INITIAL_JOINTS) None] in
  let inp1 := mkInput true 1 (1 # 60) q INITIAL_JOINTS [] no_keys in
  let inp2 := mkInput true (61 # 60) (1 # 60) q crouch [] no_keys in
  let r1 := fst (robotFrame inp1 (grounded q)) in
  let r2 := fst (robotFrame inp2 r1) in
  snd (robotFrame inp1 (grounded q)) = [onUpdateJoints crouch] /\
  resolvedIntent inp2 r1 = None /\
  y (position (pose r2)) = GROUND_Y /\
  FL_thigh (baseJoints inp2) = 1.0 /\
  FL_thigh (renderedJoints r2) = 0.5 /\
  renderedJoints r2 = INITIAL_JOINTS /\
  animate (elapsedTime inp2) (baseJoints inp2) (y (position (pose r2))) false = crouch.
Proof.
  cbv zeta. repeat split; vm_compute; reflexivity.
Qed.

(** * Further properties of the frame loop *)

(** ** Manual input *)

(** X1. With no queue executing, a mounted frame takes its intent from the
    held keys: S or ArrowDown wins over W or ArrowUp, D or ArrowRight wins
    over A or ArrowLeft, J alone decides the jump, and the command state is
    left as it was. *)
Theorem manual_input_precedence (inp : FrameInput) (r : Robot) :
  mounted inp = true ->
  isExecuting (exec r) = false ->
  let k := keys inp in
  let up := k "KeyW"%string || k "ArrowUp"%string in
  let down := k "KeyS"%string || k "ArrowDown"%string in
  let left := k "KeyA"%string || k "ArrowLeft"%string in
  let right := k "KeyD"%string || k "ArrowRight"%string in
  resolvedIntent inp r =
    Some (mkIntent (if down then -1 else if up then 1 else 0)
                   (if right then -1 else if left then 1 else 0)
                   (k "KeyJ"%string) "") /\
  exec (fst (robotFrame inp r)) = exec r.
Proof.
  intros Hm He. cbv zeta.
  unfold resolvedIntent, robotFrame, commandLogic. rewrite Hm, He. simpl.
  unfold keyboard, integrate. rewrite He. simpl.
  split; [|reflexivity].
  destruct (keys inp "KeyW"%string), (keys inp "ArrowUp"%string),
    (keys inp "KeyS"%string), (keys inp "ArrowDown"%string),
    (keys inp "KeyA"%string), (keys inp "ArrowLeft"%string),
    (keys inp "KeyD"%string), (keys inp "ArrowRight"%string),
    (keys inp "KeyJ"%string); reflexivity.
Qed.

(** ** End of a queue *)

(** X2. The frame that finds the command index at or past the end of an
    executing queue stops execution, calls onClearQueue before the
    telemetry, and already obeys the keyboard. *)
Theorem queue_completion_frame (inp : FrameInput) (r : Robot) :
  mounted inp = true ->
  isExecuting (exec r) = true ->
  (length (commandQueue inp) <= cmdIndex (exec r))%nat ->
  isExecuting (exec (fst (robotFrame inp r))) = false /\
  cmdIndex (exec (fst (robotFrame inp r))) = cmdIndex (exec r) /\
  resolvedIntent inp r = Some (keyboard (keys inp) idle) /\
  exists stats, snd (robotFrame inp r) = [onClearQueue; onUpdateStats stats].
Proof.
  intros Hm He Hge.
  unfold resolvedIntent, robotFrame, commandLogic. rewrite Hm, He. simpl.
  assert (H1 : (cmdIndex (exec r) <? length (commandQueue inp))%nat = false)
    by (apply Nat.ltb_ge; exact Hge).
  assert (H2 : (length (commandQueue inp) <=? cmdIndex (exec r))%nat = true)
    by (apply Nat.leb_le; exact Hge).
  rewrite H1, H2. simpl. repeat split. eexists. reflexivity.
Qed.

(** ** The command state over a frame *)

Lemma runCommand_index (cmd : RobotCommand) (now : Q) (e : Exec) :
  let e' := match runCommand cmd now e with Returned e' _ => e' | Resolved e' _ => e' end in
  (cmdIndex e' = cmdIndex e \/ cmdIndex e' = S (cmdIndex e)) /\
  lastQueueLength e' = lastQueueLength e.
Proof.
  unfold runCommand.
  destruct (Qeq_bool (cmdStartTime e) 0); simpl;
    destruct (String.eqb (type cmd) "SET_JOINTS"); simpl;
    destruct (targetJoints cmd); simpl;
    destruct (String.eqb (type cmd) "JUMP"); simpl;
    try destruct (Qltb _ _); simpl; split; auto.
Qed.

(** X3. A frame moves the command index by at most one and never past the
    end of the queue it is given, never turns execution on, never touches
    lastQueueLength, and leaves the whole command state alone when nothing
    is executing. *)
Theorem frame_command_state (inp : FrameInput) (r : Robot) :
  let e := exec r in
  let e' := exec (fst (robotFrame inp r)) in
  (cmdIndex e' = cmdIndex e \/ cmdIndex e' = S (cmdIndex e)) /\
  ((cmdIndex e <= length (commandQueue inp))%nat ->
   (cmdIndex e' <= length (commandQueue inp))%nat) /\
  (isExecuting e' = true -> isExecuting e = true) /\
  lastQueueLength e' = lastQueueLength e /\
  (isExecuting e = false -> e' = e).
Proof.
  cbv zeta. unfold robotFrame.
  destruct (mounted inp); simpl; [|repeat split; auto].
  unfold commandLogic.
  destruct (isExecuting (exec r)) eqn:He; simpl.
  - destruct (cmdIndex (exec r) <? length (commandQueue inp))%nat eqn:Hlt; simpl.
    + apply Nat.ltb_lt in Hlt.
      destruct (nth_error (commandQueue inp) (cmdIndex (exec r))) as [cmd|] eqn:Hn.
      * pose proof (runCommand_index cmd (elapsedTime inp) (exec r)) as Hi.
        pose proof (runCommand_executing cmd (elapsedTime inp) (exec r)) as Hx.
        destruct (runCommand cmd (elapsedTime inp) (exec r)) as [e' target|e' i];
          simpl in *; destruct Hi as [Hi Hl];
          (split; [exact Hi|]); (split; [intros _; destruct Hi as [->| ->]; lia|]);
          (split; [reflexivity|]); (split; [exact Hl|discriminate]).
      * simpl. repeat split; auto; discriminate.
    + destruct (length (commandQueue inp) <=? cmdIndex (exec r))%nat; simpl;
        repeat split; auto; discriminate.
  - repeat split; auto; congruence.
Qed.

(** ** Instant commands *)

Lemma instant_frame (inp : FrameInput) (r : Robot) (cmd : RobotCommand) :
  mounted inp = true ->
  isExecuting (exec r) = true ->
  nth_error (commandQueue inp) (cmdIndex (exec r)) = Some cmd ->
  cmdStartTime (exec r) = 0 ->
  instant cmd ->
  exec (fst (robotFrame inp r)) =
    mkExec (S (cmdIndex (exec r))) 0 true (lastQueueLength (exec r)).
Proof.
  intros Hm He Hn Hs Hi. unfold robotFrame. rewrite Hm. simpl.
  assert (Hlt : (cmdIndex (exec r) < length (commandQueue inp))%nat).
  { apply nth_error_Some. congruence. }
  destruct (commandLogic_in_bounds (commandQueue inp) (elapsedTime inp) (exec r) He Hlt)
    as [cmd' [Hn' ->]].
  assert (cmd' = cmd) by congruence. subst cmd'.
  unfold runCommand. rewrite Hs. simpl.
  destruct Hi as [Ht|[Ht Hj]]; rewrite Ht; simpl.
  - unfold advance, stamp. simpl. rewrite He. reflexivity.
  - destruct (targetJoints cmd) as [target|]; [|contradiction].
    simpl. unfold advance, stamp. simpl. rewrite He. reflexivity.
Qed.

(** X4. A queue made of instant commands (JUMP, or SET_JOINTS with its
    targetJoints), taken up with the start time at 0 (the current command
    not stamped yet, as after a restart of the queue), is consumed one
    command per mounted frame, whatever the clock and the frame times:
    after n frames the index has advanced by n and the start time is 0
    again.  A start time left over from a replaced queue is not covered:
    the first block of the frame is skipped then. *)
Theorem instant_commands_take_one_frame
  (q : list RobotCommand) (frames : list FrameInput) (r : Robot) :
  Forall instant q ->
  Forall (fun inp => mounted inp = true /\ commandQueue inp = q) frames ->
  isExecuting (exec r) = true ->
  cmdStartTime (exec r) = 0 ->
  (cmdIndex (exec r) + length frames <= length q)%nat ->
  exec (robotRun frames r) =
    mkExec (cmdIndex (exec r) + length frames) 0 true (lastQueueLength (exec r)).
Proof.
  intros Hq. revert r.
  induction frames as [|inp rest IH]; intros r Hall He Hs Hlen; simpl.
  - rewrite Nat.add_0_r. destruct (exec r); simpl in *. subst. reflexivity.
  - inversion Hall as [|? ? [Hm Hcq] Hrest]; subst.
    simpl in Hlen.
    destruct (nth_error (commandQueue inp) (cmdIndex (exec r))) as [cmd|] eqn:Hn.
    + assert (Hi : instant cmd).
      { apply (proj1 (Forall_forall _ _) Hq). eapply nth_error_In. exact Hn. }
      pose proof (instant_frame inp r cmd Hm He Hn Hs Hi) as Hf.
      rewrite (IH (fst (robotFrame inp r)) Hrest); rewrite Hf; simpl;
        try reflexivity; try lia.
      f_equal. lia.
    + apply nth_error_None in Hn. lia.
Qed.

(** X5. A JUMP command that starts while the robot is off the ground
    (above GROUND_Y+0.01) is consumed all the same and changes nothing: the
    frame ends in the pose an idle frame would have given. *)
Theorem airborne_jump_is_lost (inp : FrameInput) (r : Robot) (cmd : RobotCommand) :
  mounted inp = true ->
  isExecuting (exec r) = true ->
  nth_error (commandQueue inp) (cmdIndex (exec r)) = Some cmd ->
  cmdStartTime (exec r) = 0 ->
  type cmd = "JUMP"%string ->
  GROUND_Y + 0.01 < y (position (pose r)) ->
  cmdIndex (exec (fst (robotFrame inp r))) = S (cmdIndex (exec r)) /\
  pose (fst (robotFrame inp r)) = physics (objectTracker inp) (delta inp) idle (pose r).
Proof.
  intros Hm He Hn Hs Ht Hair.
  split.
  - rewrite (instant_frame inp r cmd Hm He Hn Hs (or_introl Ht)). reflexivity.
  - assert (Hi : resolvedIntent inp r = Some (mkIntent 0 0 true "")).
    { unfold resolvedIntent. rewrite Hm. simpl.
      assert (Hlt : (cmdIndex (exec r) < length (commandQueue inp))%nat).
      { apply nth_error_Some. congruence. }
      destruct (commandLogic_in_bounds (commandQueue inp) (elapsedTime inp) (exec r) He Hlt)
        as [cmd' [Hn' ->]].
      assert (cmd' = cmd) by congruence. subst cmd'.
      unfold runCommand. rewrite Hs, Ht. simpl. rewrite He. reflexivity. }
    destruct (frame_with_intent inp r _ Hi) as [-> _].
    unfold physics, rotate, horizontal, vertical. simpl.
    rewrite (off_ground _ Hair). reflexivity.
Qed.

(** ** Timed commands *)

(** X6. A command whose type is neither SET_JOINTS nor JUMP is timed from
    the frame that stamps it (a start time of 0 counts as not stamped):
    while less than its duration has elapsed the index stays and the
    intent is the direction of its type (none for WAIT or an unknown
    type); on the first frame at or past the duration the index advances,
    the start time is cleared and the robot is asked nothing. *)
Theorem timed_command_frame (inp : FrameInput) (r : Robot) (cmd : RobotCommand) :
  mounted inp = true ->
  isExecuting (exec r) = true ->
  nth_error (commandQueue inp) (cmdIndex (exec r)) = Some cmd ->
  type cmd <> "SET_JOINTS"%string ->
  type cmd <> "JUMP"%string ->
  let e := exec r in
  let now := elapsedTime inp in
  let start := if Qeq_bool (cmdStartTime e) 0 then now else cmdStartTime e in
  (now - start < duration_or_default cmd ->
     exec (fst (robotFrame inp r)) = mkExec (cmdIndex e) start true (lastQueueLength e) /\
     resolvedIntent inp r =
       Some (mkIntent (commandForward cmd) (commandTurn cmd) false (description_or_type cmd))) /\
  (duration_or_default cmd <= now - start ->
     exec (fst (robotFrame inp r)) = mkExec (S (cmdIndex e)) 0 true (lastQueueLength e) /\
     resolvedIntent inp r = Some (mkIntent 0 0 false (description_or_type cmd))).
Proof.
  intros Hm He Hn Ht1 Ht2. cbv zeta.
  assert (Hlt : (cmdIndex (exec r) < length (commandQueue inp))%nat).
  { apply nth_error_Some. congruence. }
  destruct (commandLogic_in_bounds (commandQueue inp) (elapsedTime inp) (exec r) He Hlt)
    as [cmd' [Hn' Hc]].
  assert (cmd' = cmd) by congruence. subst cmd'.
  unfold resolvedIntent, robotFrame. rewrite Hm, Hc. simpl.
  destruct r as [ps [ix st ex lq] rj]. simpl in *. subst ex.
  unfold runCommand, commandForward, commandTurn, stamp, advance. simpl.
  apply String.eqb_neq in Ht1, Ht2. rewrite Ht1, Ht2. rewrite !andb_false_r. simpl.
  split; intro H.
  - apply Qltb_true in H.
    destruct (Qeq_bool st 0); simpl in *; rewrite H; simpl;
      (split; [reflexivity|]);
      destruct (String.eqb (type cmd) "MOVE_BACKWARD");
      destruct (String.eqb (type cmd) "TURN_RIGHT"); reflexivity.
  - apply Qltb_false in H.
    destruct (Qeq_bool st 0); simpl in *; rewrite H; simpl; split; reflexivity.
Qed.

(** ** Queue admission after a clear *)

(** X7. Once the queue has been cleared (by the owner after completion, or
    by a reset), installing any non-empty queue restarts execution from its
    first command, whatever ran before; the same-length quirk can only
    arise when a running queue is replaced directly. *)
Theorem clear_then_install_restarts (q : list RobotCommand) (e : Exec) :
  q <> [] ->
  installQueue q (installQueue [] e) = mkExec 0 0 true (length q) /\
  isExecuting (installQueue [] e) = false /\
  lastQueueLength (installQueue [] e) = 0%nat.
Proof.
  intro Hq. destruct q as [|c rest]; [contradiction|].
  repeat split.
Qed.

(** ** Standing, stepping and telemetry *)

(** X8. A robot standing on the ground (height GROUND_Y, vertical velocity
    0) is still standing there after any frame without a jump intent and
    with a non-negative frame time, moving or not. *)
Theorem grounded_rest_is_stable (inp : FrameInput) (r : Robot) (i : Intent) :
  resolvedIntent inp r = Some i ->
  jump i = false ->
  y (position (pose r)) == GROUND_Y ->
  verticalVel (pose r) == 0 ->
  0 <= delta inp ->
  y (position (pose (fst (robotFrame inp r)))) == GROUND_Y /\
  verticalVel (pose (fst (robotFrame inp r))) == 0.
Proof.
  intros Hi Hj Hy Hv Hd.
  destruct (frame_with_intent inp r i Hi) as [-> _].
  destruct (physics_height (objectTracker inp) (delta inp) i (pose r)) as [-> ->].
  pose proof (vertical_cases (delta inp) i (y (position (pose r))) (verticalVel (pose r))) as Hc.
  rewrite Hj in Hc. simpl in Hc.
  destruct Hc as [[_ ->]|[Hge ->]]; simpl; [split; reflexivity|].
  rewrite Hy, Hv in Hge. rewrite Hy, Hv. unfold GRAVITY in *.
  assert (Hz : delta inp == 0).
  { destruct (Qlt_le_dec 0 (delta inp)) as [Hpos|Hneg]; [|lra].
    exfalso. pose proof (Qmult_lt_0_compat _ _ Hpos Hpos) as Hsq. lra. }
  rewrite Hz. split; ring.
Qed.

Lemma collision_same_objects (nx nz ry : Q) (t1 t2 : ObjectTracker) :
  (forall o, In o (tracker_values t1) <-> In o (tracker_values t2)) ->
  collision nx nz ry (tracker_values t1) = collision nx nz ry (tracker_values t2).
Proof.
  intro H.
  destruct (collision nx nz ry (tracker_values t1)) eqn:E1;
    destruct (collision nx nz ry (tracker_values t2)) eqn:E2; try reflexivity; exfalso.
  - apply collision_true in E1. destruct E1 as [o [Hin Ho]].
    assert (E : collision nx nz ry (tracker_values t2) = true).
    { apply collision_true. exists o. split; [apply H; exact Hin|exact Ho]. }
    congruence.
  - apply collision_true in E2. destruct E2 as [o [Hin Ho]].
    assert (E : collision nx nz ry (tracker_values t1) = true).
    { apply collision_true. exists o. split; [apply H; exact Hin|exact Ho]. }
    congruence.
Qed.

(** X10. The outcome of a frame depends on the tracker only through the
    set of positions it holds: ids, insertion order and repeated positions
    make no difference, although the loop stops at the first hit. *)
Theorem collision_ignores_order_and_ids (t1 t2 : ObjectTracker) (inp : FrameInput) (r : Robot) :
  (forall o, In o (tracker_values t1) <-> In o (tracker_values t2)) ->
  robotFrame (withTracker t1 inp) r = robotFrame (withTracker t2 inp) r.
Proof.
  intro H. unfold robotFrame. simpl.
  destruct (mounted inp); simpl; [|reflexivity].
  destruct (commandLogic _ _ _) as [[e target|e i0] cleared]; [reflexivity|].
  unfold integrate. simpl.
  set (i := if negb (isExecuting e) then keyboard (keys inp) i0 else i0).
  assert (Hp : physics t1 (delta inp) i (pose r) = physics t2 (delta inp) i (pose r)).
  { unfold physics, horizontal.
    destruct (nonzero (forward i)); [|reflexivity].
    destruct (candidate _ _ _ _) as [nx nz].
    rewrite (collision_same_objects nx nz _ t1 t2 H). reflexivity. }
  rewrite Hp. reflexivity.
Qed.

(** X11. Telemetry goes out exactly on the frames that reach the physics
    update, as the last call of the frame, and reports the pose the frame
    ended with; the reported speed is MOVE_SPEED whenever the forward or
    turn intent is nonzero (so also for a blocked step or a turn in place)
    and 0 otherwise. *)
Theorem telemetry_reports_frame_result (inp : FrameInput) (r : Robot) :
  let r' := fst (robotFrame inp r) in
  match resolvedIntent inp r with
  | Some i =>
      let moving := nonzero (forward i) || nonzero (turn i) in
      exists before,
        snd (robotFrame inp r) =
          before ++ [onUpdateStats (mkStats (position (pose r'))
                                            (if moving then MOVE_SPEED else 0)
                                            (rotation (pose r')) moving (activeDesc i))] /\
        (before = [] \/ before = [onClearQueue])
  | None => forall stats, ~ In (onUpdateStats stats) (snd (robotFrame inp r))
  end.
Proof.
  cbv zeta. unfold resolvedIntent, robotFrame.
  destruct (mounted inp); simpl; [|intros stats []].
  destruct (commandLogic _ _ _) as [[e target|e i0] cleared]; simpl.
  - intros stats [H|[]]. discriminate H.
  - destruct cleared.
    + exists [onClearQueue]. split; [reflexivity|right; reflexivity].
    + exists []. split; [reflexivity|left; reflexivity].
Qed.

(** * Properties of the object integrator *)

Lemma objectFrame_floor (m : bool) (dt : Q) (id : string) (b : Body) (t : ObjectTracker) :
  0.15 <= y (pos b) ->
  0.15 <= y (pos (fst (objectFrame m dt id b t))) /\
  x (pos (fst (objectFrame m dt id b t))) = x (pos b) /\
  z (pos (fst (objectFrame m dt id b t))) = z (pos b).
Proof.
  intro H. unfold objectFrame, bounce.
  destruct m; simpl; [|repeat split; auto].
  destruct (Qltb 0.1501 (y (pos b)) || Qltb 0.01 (Qabs (velocity b))); simpl;
    [|repeat split; auto].
  destruct (Qltb _ 0.15) eqn:E; simpl.
  - repeat split. discriminate.
  - apply Qltb_false in E. repeat split. exact E.
Qed.

(** X12. An object that is at or above the floor height 0.15 stays at or
    above it over any sequence of frames, and its x and z never change. *)
Theorem object_stays_above_floor (deltas : list Q) (id : string) (b : Body) (t : ObjectTracker) :
  0.15 <= y (pos b) ->
  0.15 <= y (pos (fst (objectRun deltas id b t))) /\
  x (pos (fst (objectRun deltas id b t))) = x (pos b) /\
  z (pos (fst (objectRun deltas id b t))) = z (pos b).
Proof.
  revert b t. induction deltas as [|d rest IH]; intros b t H; simpl.
  - repeat split; auto.
  - destruct (objectFrame_floor true d id b t H) as [Hy [Hx Hz]].
    destruct (objectFrame true d id b t) as [b' t']. simpl in *.
    destruct (IH b' t' Hy) as [Hy' [Hx' Hz']].
    repeat split; congruence.
Qed.

(** X13. An object declared at a height of at most 0.1501, in particular
    one declared below the floor, is never integrated after its sync: over
    any frames it keeps the declared position and zero velocity (it is
    neither dropped nor lifted onto the floor), and the tracker is not
    written again. *)
Theorem low_object_never_moves
  (deltas : list Q) (id : string) (declared : Vector3) (t : ObjectTracker) :
  y declared <= 0.1501 ->
  objectRun deltas id (fst (syncObject id declared t)) (snd (syncObject id declared t))
    = syncObject id declared t.
Proof.
  intro H. unfold syncObject. simpl.
  generalize (tracker_set id declared t) as t0.
  induction deltas as [|d rest IH]; intro t0; simpl; [reflexivity|].
  unfold objectFrame. simpl.
  assert (Hg : Qltb 0.1501 (y declared) = false) by (apply Qltb_false; exact H).
  rewrite Hg. simpl. apply IH.
Qed.

(** X14. When an object at or above the floor is driven through it by a
    frame of non-negative length, it leaves the floor upwards or rests:
    the new velocity is never negative and never more than 0.4 times the
    impact speed. *)
Theorem rebound_is_upward (dt : Q) (id : string) (b : Body) (t : ObjectTracker) :
  0.1501 < y (pos b) \/ 0.01 < Qabs (velocity b) ->
  0.15 <= y (pos b) ->
  0 <= dt ->
  y (pos b) + (velocity b - GRAVITY * dt) * dt < 0.15 ->
  let impact := velocity b - GRAVITY * dt in
  let v' := velocity (fst (objectFrame true dt id b t)) in
  impact < 0 /\ 0 <= v' /\ v' <= 0.4 * - impact.
Proof.
  intros Hgate Hy Hd Hpen. cbv zeta.
  assert (Hneg : velocity b - GRAVITY * dt < 0).
  { destruct (Qlt_le_dec (velocity b - GRAVITY * dt) 0) as [Hlt|Hge]; [exact Hlt|].
    exfalso. pose proof (Qmult_le_0_compat _ _ Hge Hd) as Hm. lra. }
  split; [exact Hneg|].
  assert (Hg : Qltb 0.1501 (y (pos b)) || Qltb 0.01 (Qabs (velocity b)) = true).
  { apply orb_true_iff. destruct Hgate as [H|H]; [left|right]; apply Qltb_true; exact H. }
  unfold objectFrame. simpl negb. cbv iota. rewrite Hg.
  unfold bounce. apply Qltb_true in Hpen. rewrite Hpen.
  destruct (Qltb _ 0.5); simpl; lra.
Qed.

Lemma tracker_get_set_same (id : string) (p : Vector3) (t : ObjectTracker) :
  tracker_get id (tracker_set id p t) = Some p.
Proof.
  induction t as [|[k v] rest IH]; simpl.
  - rewrite String.eqb_refl. reflexivity.
  - destruct (String.eqb k id) eqn:E; simpl; rewrite E; [reflexivity|exact IH].
Qed.

Lemma tracker_get_set_other (id other : string) (p : Vector3) (t : ObjectTracker) :
  other <> id ->
  tracker_get other (tracker_set id p t) = tracker_get other t.
Proof.
  intro H. apply String.eqb_neq in H.
  induction t as [|[k v] rest IH]; simpl.
  - rewrite String.eqb_sym, H. reflexivity.
  - destruct (String.eqb k id) eqn:E; simpl.
    + apply String.eqb_eq in E. subst k. rewrite String.eqb_sym, H. reflexivity.
    + destruct (String.eqb k other); [reflexivity|exact IH].
Qed.

Lemma objectFrame_tracker (m : bool) (dt : Q) (id : string) (b : Body) (t : ObjectTracker) :
  tracker_get id t = Some (pos b) ->
  tracker_get id (snd (objectFrame m dt id b t)) = Some (pos (fst (objectFrame m dt id b t))) /\
  forall other, other <> id ->
    tracker_get other (snd (objectFrame m dt id b t)) = tracker_get other t.
Proof.
  intro H. unfold objectFrame.
  destruct m; simpl; [|split; auto].
  destruct (Qltb 0.1501 (y (pos b)) || Qltb 0.01 (Qabs (velocity b))); simpl;
    [|split; auto].
  destruct (bounce _ _) as [y2 v2]. simpl. split.
  - apply tracker_get_set_same.
  - intros other Ho. apply tracker_get_set_other. exact Ho.
Qed.

(** X15. From its sync on, the tracker entry of an object is the
    position the object has now, after any sequence of frames, and the
    entries of the other objects are those the tracker had before. *)
Theorem tracker_follows_object
  (deltas : list Q) (id : string) (declared : Vector3) (t : ObjectTracker) :
  let start := syncObject id declared t in
  let final := objectRun deltas id (fst start) (snd start) in
  tracker_get id (snd final) = Some (pos (fst final)) /\
  forall other, other <> id -> tracker_get other (snd final) = tracker_get other t.
Proof.
  cbv zeta. unfold syncObject. simpl.
  assert (Hrun : forall ds b t0,
             tracker_get id t0 = Some (pos b) ->
             tracker_get id (snd (objectRun ds id b t0)) = Some (pos (fst (objectRun ds id b t0))) /\
             forall other, other <> id ->
               tracker_get other (snd (objectRun ds id b t0)) = tracker_get other t0).
  { induction ds as [|d rest IH]; intros b t0 H0; simpl; [split; auto|].
    destruct (objectFrame_tracker true d id b t0 H0) as [H1 H2].
    destruct (objectFrame true d id b t0) as [b' t']. simpl in *.
    destruct (IH b' t' H1) as [H3 H4]. split; [exact H3|].
    intros other Ho. rewrite (H4 other Ho). apply H2. exact Ho. }
  destruct (Hrun deltas (mkBody declared 0) (tracker_set id declared t)) as [H1 H2].
  - simpl. apply tracker_get_set_same.
  - split; [exact H1|]. intros other Ho. rewrite (H2 other Ho).
    apply tracker_get_set_other. exact Ho.
Qed.

(** * Properties of the control panel *)

(** X16. Moving a slider sets the joint it belongs to and leaves the
    other eleven joints as they were. *)
Theorem slider_sets_one_joint (l l' : LegName) (p p' : Part) (value : Q) (prev : JointState) :
  getJoint l p (handleSliderChange l p value prev) = value /\
  ((l', p') <> (l, p) ->
   getJoint l' p' (handleSliderChange l p value prev) = getJoint l' p' prev).
Proof.
  split.
  - destruct l, p; reflexivity.
  - intro H. destruct l, p, l', p'; try reflexivity; exfalso; apply H; reflexivity.
Qed.

(** X17. Whatever name a quick action is called with, the pose it applies
    lies within the slider range of every joint and within the joint
    limits given to the planner; it does not depend on the current pose,
    and an unknown name gives the initial pose. *)
Theorem presets_within_limits (preset : string) (l : LegName) (p : Part) :
  let v := getJoint l p (applyPreset preset) in
  sliderMin p <= v /\ v <= sliderMax p /\
  plannerMin p <= v /\ v <= plannerMax p /\
  (preset <> "WAVE"%string -> preset <> "SIT"%string -> preset <> "POUNCE"%string ->
   applyPreset preset = INITIAL_JOINTS).
Proof.
  cbv zeta. unfold applyPreset.
  destruct (String.eqb_spec preset "WAVE"); [|destruct (String.eqb_spec preset "SIT");
    [|destruct (String.eqb_spec preset "POUNCE")]];
    destruct l, p; cbn -[Qle];
    (repeat split; try (unfold Qle; simpl; lia); try congruence).
Qed.

(** * The reach of the gait overlay *)

Lemma lift_bounds (p : Q) : -1 <= p -> p <= 1 -> 0 <= Qmax 0 p * 0.5 /\ Qmax 0 p * 0.5 <= 0.5.
Proof.
  intros H1 H2.
  destruct (Q.max_spec 0 p) as [[Hp H]|[Hp H]]; rewrite H; split; lra.
Qed.

(** X19. For a sine between -1 and 1 at the two gait phases, a frame that
    reaches the animation update (mounted, and not the frame that starts a
    SET_JOINTS command) and ends on the ground (height at most
    GROUND_Y+0.1) renders every thigh
    within GAIT_AMP of its base angle and every calf between 0.5 below its
    base angle and the base angle itself (the calf is only ever lifted),
    and every hip at its base angle. *)
Theorem gait_overlay_is_bounded (inp : FrameInput) (r : Robot) (i : Intent) (l : LegName) :
  resolvedIntent inp r = Some i ->
  -1 <= Math_sin (elapsedTime inp * GAIT_FREQ) <= 1 ->
  -1 <= Math_sin (elapsedTime inp * GAIT_FREQ + Math_PI) <= 1 ->
  y (position (pose (fst (robotFrame inp r)))) <= GROUND_Y + 0.1 ->
  let J := renderedJoints (fst (robotFrame inp r)) in
  let B := baseJoints inp in
  getJoint l hip J = getJoint l hip B /\
  Qabs (getJoint l thigh J - getJoint l thigh B) <= GAIT_AMP /\
  getJoint l calf B - 0.5 <= getJoint l calf J /\
  getJoint l calf J <= getJoint l calf B.
Proof.
  intros Hi [Ha1 Ha2] [Hb1 Hb2] Hy. cbv zeta.
  destruct (frame_with_intent inp r i Hi) as [Hp ->]. rewrite Hp in Hy.
  unfold animate. apply Qltb_false in Hy. rewrite Hy.
  pose proof (lift_bounds _ Ha1 Ha2) as [La1 La2].
  pose proof (lift_bounds _ Hb1 Hb2) as [Lb1 Lb2].
  unfold GAIT_AMP.
  destruct (nonzero (forward i) || nonzero (turn i));
    destruct l;
    cbn [getJoint setLegs FL_hip FL_thigh FL_calf FR_hip FR_thigh FR_calf
         BL_hip BL_thigh BL_calf BR_hip BR_thigh BR_calf];
    (split; [reflexivity|]);
    (split; [apply Qabs_Qle_condition; split; lra|split; lra]).
Qed.

(** * Landing *)

Lemma coasting_frame (dt : Q) (inp : FrameInput) (r : Robot) :
  coasting dt inp ->
  isExecuting (exec r) = false ->
  let y0 := y (position (pose r)) in
  let v0 := verticalVel (pose r) in
  let r' := fst (robotFrame inp r) in
  exec r' = exec r /\
  ((y0 + (v0 - GRAVITY * dt) * dt < GROUND_Y /\
    y (position (pose r')) = GROUND_Y /\ verticalVel (pose r') = 0) \/
   (GROUND_Y <= y0 + (v0 - GRAVITY * dt) * dt /\
    y (position (pose r')) = y0 + (v0 - GRAVITY * dt) * dt /\
    verticalVel (pose r') = v0 - GRAVITY * dt)).
Proof.
  intros [Hm [Hd Hj]] He. cbv zeta.
  destruct (manual_input_precedence inp r Hm He) as [Hi Hx]. cbv zeta in Hi.
  rewrite Hj in Hi.
  split; [exact Hx|].
  match type of Hi with _ = Some ?i => set (i0 := i) in * end.
  destruct (frame_with_intent inp r i0 Hi) as [-> _].
  destruct (physics_height (objectTracker inp) (delta inp) i0 (pose r)) as [-> ->].
  pose proof (vertical_cases (delta inp) i0 (y (position (pose r))) (verticalVel (pose r))) as Hc.
  change (jump i0) with false in Hc. simpl in Hc. rewrite Hd in *.
  destruct Hc as [[Hlt ->]|[Hge ->]]; simpl.
  - left. repeat split. exact Hlt.
  - right. repeat split. exact Hge.
Qed.

Lemma coasting_on_ground (dt : Q) (frames : list FrameInput) (r : Robot) :
  0 <= dt ->
  Forall (coasting dt) frames ->
  isExecuting (exec r) = false ->
  y (position (pose r)) == GROUND_Y ->
  verticalVel (pose r) == 0 ->
  y (position (pose (robotRun frames r))) == GROUND_Y /\
  verticalVel (pose (robotRun frames r)) == 0.
Proof.
  intros Hd Hall. revert r.
  induction Hall as [|inp rest Hc Hrest IH]; intros r He Hy Hv; simpl.
  - split; assumption.
  - destruct (coasting_frame dt inp r Hc He) as [Hx Hcase]. cbv zeta in Hcase.
    apply IH.
    + rewrite Hx. exact He.
    + destruct Hcase as [[_ [-> _]]|[Hge [-> _]]]; [reflexivity|].
      rewrite Hy, Hv in *. unfold GRAVITY in *.
      destruct (Qlt_le_dec 0 dt) as [Hpos|Hneg].
      * exfalso. pose proof (Qmult_lt_0_compat _ _ Hpos Hpos). lra.
      * assert (Hz : dt == 0) by lra. rewrite Hz. ring.
    + destruct Hcase as [[_ [_ ->]]|[Hge [_ ->]]]; [reflexivity|].
      rewrite Hy, Hv in *. unfold GRAVITY in *.
      destruct (Qlt_le_dec 0 dt) as [Hpos|Hneg].
      * exfalso. pose proof (Qmult_lt_0_compat _ _ Hpos Hpos). lra.
      * assert (Hz : dt == 0) by lra. rewrite Hz. ring.
Qed.

Lemma fallHeight_step (y0 v0 dt : Q) (n : nat) :
  fallHeight (y0 + (v0 - GRAVITY * dt) * dt) (v0 - GRAVITY * dt) dt n
  == fallHeight y0 v0 dt (S n).
Proof.
  unfold fallHeight. cbv zeta.
  rewrite Nat2Z.inj_succ. unfold Z.succ. rewrite inject_Z_plus.
  change (inject_Z 1) with 1. ring.
Qed.

(** X20. A robot driven by hand without J, in frames of one positive
    length dt, is standing on the ground (height GROUND_Y, vertical
    velocity 0) after n frames as soon as the free-fall height
    y0 + n*dt*v0 - GRAVITY*dt^2*n(n+1)/2 lies below GROUND_Y; from the
    initial height 2.0 at 60 Hz that is 23 frames. *)
Theorem robot_lands_within (dt : Q) (frames : list FrameInput) (r : Robot) :
  0 < dt ->
  Forall (coasting dt) frames ->
  isExecuting (exec r) = false ->
  GROUND_Y <= y (position (pose r)) ->
  fallHeight (y (position (pose r))) (verticalVel (pose r)) dt (length frames) < GROUND_Y ->
  y (position (pose (robotRun frames r))) == GROUND_Y /\
  verticalVel (pose (robotRun frames r)) == 0.
Proof.
  intros Hd Hall. revert r.
  induction Hall as [|inp rest Hc Hrest IH]; intros r He Hy Hfall.
  - exfalso. unfold fallHeight in Hfall. simpl in Hfall.
    assert (Hs : y (position (pose r)) + 0 * dt * verticalVel (pose r)
                 - GRAVITY * dt * dt * (0 * (0 + 1)) * (1 # 2) == y (position (pose r))) by ring.
    rewrite Hs in Hfall. lra.
  - simpl robotRun.
    destruct (coasting_frame dt inp r Hc He) as [Hx Hcase]. cbv zeta in Hcase.
    destruct Hcase as [[_ [Hy' Hv']]|[Hge [Hy' Hv']]].
    + apply (coasting_on_ground dt).
      * lra.
      * exact Hrest.
      * rewrite Hx. exact He.
      * rewrite Hy'. reflexivity.
      * rewrite Hv'. reflexivity.
    + apply IH.
      * rewrite Hx. exact He.
      * rewrite Hy'. exact Hge.
      * rewrite Hy', Hv'. rewrite fallHeight_step. exact Hfall.
Qed.


End Simulation.

(** * Closed instances

    The statements above hold for any [Math_sin], [Math_cos] and [Math_PI];
    below they are applied to the sample scenarios, with the truncated
    series standing for the trigonometric functions. *)

Lemma C2_collision_gate_witness :
  blocked 0 (1 # 40) GROUND_Y cube_ahead /\
  x (position (pose (fst (robotFrame sin_series cos_series pi_approx
       (frame60 1 forward_queue cube_ahead no_keys) (grounded forward_queue))))) = 0 /\
  z (position (pose (fst (robotFrame sin_series cos_series pi_approx
       (frame60 1 forward_queue cube_ahead no_keys) (grounded forward_queue))))) = 0.
Proof.
  assert (Hb : blocked 0 (1 # 40) GROUND_Y cube_ahead).
  { exists (mkVector3 0 0.15 0.5). split; [left; reflexivity|split; reflexivity]. }
  split; [exact Hb|].
  refine (proj1 (proj2 (C2_collision_gate sin_series cos_series pi_approx
            (frame60 1 forward_queue cube_ahead no_keys) (grounded forward_queue)
            (mkIntent 1 0 false "walk") _ _)) _).
  - reflexivity.
  - intro H. discriminate H.
  - exists (mkVector3 0 0.15 0.5). split; [left; reflexivity|split; reflexivity].
Defined.

Lemma C7_idle_frame_witness :
  resolvedIntent (frame60 1 wait_queue [] no_keys) (dropped wait_queue)
    = Some (mkIntent 0 0 false "WAIT") /\
  x (position (pose (fst (robotFrame sin_series cos_series pi_approx
       (frame60 1 wait_queue [] no_keys) (dropped wait_queue))))) = 0 /\
  rotation (pose (fst (robotFrame sin_series cos_series pi_approx
       (frame60 1 wait_queue [] no_keys) (dropped wait_queue)))) = 0.
Proof.
  split; [reflexivity|].
  pose proof (C7_idle_frame sin_series cos_series pi_approx
                (frame60 1 wait_queue [] no_keys) (dropped wait_queue)
                (mkIntent 0 0 false "WAIT") eq_refl eq_refl eq_refl eq_refl) as H.
  cbv zeta in H. destruct H as [Hx [_ [Hr _]]].
  split; [exact Hx|exact Hr].
Defined.

Lemma C10_ground_invariant_witness :
  GROUND_Y <= y (position (pose (robotRun sin_series cos_series pi_approx
     [frame60 1 jump_queue [] no_keys; frame60 2 jump_queue [] no_keys;
      frame60 3 jump_queue [] (press "KeyW" no_keys)]
     (dropped jump_queue)))).
Proof.
  apply (C10_ground_invariant sin_series cos_series pi_approx).
  intro H. discriminate H.
Defined.

Lemma C9_keys_ignored_while_executing_witness :
  robotFrame sin_series cos_series pi_approx
    (withKeys (press "KeyS" no_keys) (frame60 1 forward_queue [] no_keys))
    (grounded forward_queue) =
  robotFrame sin_series cos_series pi_approx
    (withKeys (press "KeyJ" no_keys) (frame60 1 forward_queue [] no_keys))
    (grounded forward_queue).
Proof.
  refine (proj2 (proj2 (proj2 (proj2 (C9_keys_ignored_while_executing
            sin_series cos_series pi_approx
            (frame60 1 forward_queue [] no_keys)
            (press "KeyS" no_keys) (press "KeyJ" no_keys)
            (grounded forward_queue) _ _))))).
  - reflexivity.
  - simpl. lia.
Defined.

Lemma C4_set_joints_without_target_stalls_witness :
  cmdIndex (exec (robotRun sin_series cos_series pi_approx
     [frame60 1 broken_queue [] no_keys; frame60 2 broken_queue [] no_keys;
      frame60 9 broken_queue [] no_keys]
     (grounded broken_queue))) = 0%nat /\
  isExecuting (exec (robotRun sin_series cos_series pi_approx
     [frame60 1 broken_queue [] no_keys; frame60 2 broken_queue [] no_keys;
      frame60 9 broken_queue [] no_keys]
     (grounded broken_queue))) = true.
Proof.
  refine (C4_set_joints_without_target_stalls sin_series cos_series pi_approx
            _ (grounded broken_queue) (mkCommand "SET_JOINTS" None None None) _ _ _ _).
  - repeat constructor.
  - reflexivity.
  - reflexivity.
  - reflexivity.
Defined.

(** The claim as first written fails on a 60 Hz frame: the jump frame ends
    with the velocity already reduced by one step of gravity. *)
Lemma C5_jump_velocity_counterexample :
  resolvedIntent (frame60 1 jump_queue [] no_keys) (grounded jump_queue)
    = Some (mkIntent 0 0 true "") /\
  y (position (pose (grounded jump_queue))) = GROUND_Y /\
  verticalVel (pose (fst (robotFrame sin_series cos_series pi_approx
     (frame60 1 jump_queue [] no_keys) (grounded jump_queue)))) == 8 - (1 # 3) /\
  ~ verticalVel (pose (fst (robotFrame sin_series cos_series pi_approx
     (frame60 1 jump_queue [] no_keys) (grounded jump_queue)))) == JUMP_FORCE.
Proof.
  split; [reflexivity|]. split; [reflexivity|]. split; [reflexivity|].
  intro H. discriminate H.
Qed.

Lemma C5_jump_velocity_witness :
  verticalVel (pose (fst (robotFrame sin_series cos_series pi_approx
     (frame60 1 jump_queue [] no_keys) (grounded jump_queue))))
  = JUMP_FORCE - GRAVITY * (1 # 60).
Proof.
  refine (proj1 (C5_jump_velocity sin_series cos_series pi_approx
            (frame60 1 jump_queue [] no_keys) (grounded jump_queue)
            (mkIntent 0 0 true "") _ _ _ _ _)).
  - reflexivity.
  - reflexivity.
  - reflexivity.
  - intro H. discriminate H.
  - intro H. discriminate H.
Defined.

Lemma C6_bounce_and_rest_witness :
  y (pos (fst (objectFrame true (1 # 60) "cube_red" falling_cube []))) = 0.15 /\
  velocity (fst (objectFrame true (1 # 60) "cube_red" falling_cube []))
    = - (velocity falling_cube - GRAVITY * (1 # 60)) * 0.4.
Proof.
  pose proof (C6_bounce_and_rest (1 # 60) "cube_red" falling_cube []) as H.
  cbv zeta in H.
  destruct H as [Hy [Hv _]].
  - right. reflexivity.
  - reflexivity.
  - split; [exact Hy|]. apply Hv. intro H. discriminate H.
Defined.

Lemma gait_overlay_on_animated_frames_witness :
  FL_hip (renderedJoints (fst (robotFrame sin_series cos_series pi_approx
     (frame60 1 forward_queue [] no_keys) (grounded forward_queue)))) = 0 /\
  FL_thigh (renderedJoints (fst (robotFrame sin_series cos_series pi_approx
     (frame60 1 forward_queue [] no_keys) (grounded forward_queue))))
    = 0.5 + sin_series (1 * GAIT_FREQ) * GAIT_AMP.
Proof.
  pose proof (gait_overlay_on_animated_frames sin_series cos_series pi_approx
                (frame60 1 forward_queue [] no_keys) (grounded forward_queue)
                (mkIntent 1 0 false "walk") eq_refl) as H.
  cbv zeta in H. destruct H as [[Hh _] [_ [Hm _]]].
  split; [exact Hh|].
  destruct Hm as [Ht _].
  - intro H. discriminate H.
  - left. intro H. discriminate H.
  - exact Ht.
Defined.

(** ** Runs of the sample scenarios *)

(** A queue holding one SET_JOINTS command hands its pose to the owner on
    the first frame and reports the queue complete on the second. *)
Example set_joints_queue_completes :
  let q := pose_queue crouch in
  let '(r1, ev1) := robotFrame sin_series cos_series pi_approx
                      (frame60 1 q [] no_keys) (grounded q) in
  let '(r2, ev2) := robotFrame sin_series cos_series pi_approx
                      (frame60 (61 # 60) q [] no_keys) r1 in
  ev1 = [onUpdateJoints crouch] /\
  cmdIndex (exec r1) = 1%nat /\
  isExecuting (exec r2) = false /\
  hd_error ev2 = Some onClearQueue.
Proof.
  vm_compute. repeat split; reflexivity.
Qed.

(** A two second MOVE_FORWARD is still active one second after it was
    stamped and is consumed on the first frame at or after two seconds. *)
Example move_forward_is_timed :
  let q := forward_queue in
  let r1 := fst (robotFrame sin_series cos_series pi_approx (frame60 1 q [] no_keys) (grounded q)) in
  let r2 := fst (robotFrame sin_series cos_series pi_approx (frame60 2 q [] no_keys) r1) in
  let r3 := fst (robotFrame sin_series cos_series pi_approx (frame60 3 q [] no_keys) r2) in
  cmdIndex (exec r2) = 0%nat /\ cmdStartTime (exec r2) = 1 /\
  z (position (pose r2)) == 2 * (1.5 * (1 # 60)) /\
  cmdIndex (exec r3) = 1%nat /\ cmdStartTime (exec r3) = 0 /\
  z (position (pose r3)) == z (position (pose r2)).
Proof.
  vm_compute. repeat split; reflexivity.
Qed.

(** An unknown tag behaves like WAIT: it asks nothing and is consumed when
    its duration is over. *)
Example unknown_type_consumed :
  let q := [mkCommand "DANCE" (Some 2.0) None None] in
  let r1 := fst (robotFrame sin_series cos_series pi_approx (frame60 1 q [] no_keys) (grounded q)) in
  let r2 := fst (robotFrame sin_series cos_series pi_approx (frame60 3 q [] no_keys) r1) in
  pose r1 = pose (grounded q) /\ cmdIndex (exec r1) = 0%nat /\
  pose r2 = pose (grounded q) /\ cmdIndex (exec r2) = 1%nat.
Proof.
  vm_compute. repeat split; reflexivity.
Qed.

(** The JUMP path does the same bookkeeping as the SET_JOINTS path and
    still reaches the physics update in the same frame. *)
Example jump_frame_reaches_physics :
  let q := jump_queue in
  let r1 := fst (robotFrame sin_series cos_series pi_approx (frame60 1 q [] no_keys) (dropped q)) in
  cmdIndex (exec r1) = 1%nat /\ cmdStartTime (exec r1) = 0 /\
  verticalVel (pose r1) == - (1 # 3) /\
  y (position (pose r1)) == 2 - (1 # 180).
Proof.
  vm_compute. repeat split; reflexivity.
Qed.

(** Installing another queue of the same length while the first one runs
    keeps the command index; a queue of another length restarts at 0. *)
Example same_length_queue_keeps_index :
  let running := mkExec 1 (7 # 2) true 2 in
  installQueue [mkCommand "WAIT" None None None; mkCommand "JUMP" None None None] running
    = running /\
  installQueue [mkCommand "WAIT" None None None] running = mkExec 0 0 true 1 /\
  installQueue [] running = mkExec 1 (7 # 2) false 0.
Proof.
  repeat split; reflexivity.
Qed.

(** A cube whose centre is exactly 0.6 from the candidate position does
    not stop the step; one centimetre nearer it does. *)
Example threshold_is_not_a_collision :
  let q := forward_queue in
  let at_threshold := [("cube_red"%string, mkVector3 0 0.55 0.625)] in
  let inside := [("cube_red"%string, mkVector3 0 0.55 0.615)] in
  z (position (pose (fst (robotFrame sin_series cos_series pi_approx
       (frame60 1 q at_threshold no_keys) (grounded q))))) == 0.025 /\
  z (position (pose (fst (robotFrame sin_series cos_series pi_approx
       (frame60 1 q inside no_keys) (grounded q))))) == 0.
Proof.
  vm_compute. repeat split; reflexivity.
Qed.

(** * Closed instances of the further properties *)

Lemma manual_input_precedence_witness :
  resolvedIntent (manual_frame 1 (1 # 60) (press "KeyS" (press "KeyW" no_keys))) (dropped [])
    = Some (mkIntent (-1) 0 false "").
Proof.
  exact (proj1 (manual_input_precedence sin_series cos_series pi_approx
           (manual_frame 1 (1 # 60) (press "KeyS" (press "KeyW" no_keys))) (dropped [])
           eq_refl eq_refl)).
Defined.

Lemma queue_completion_frame_witness :
  isExecuting (exec (fst (robotFrame sin_series cos_series pi_approx
     (frame60 2 jump_queue [] no_keys)
     (mkRobot initial_pose (mkExec 1 0 true 1) INITIAL_JOINTS)))) = false.
Proof.
  refine (proj1 (queue_completion_frame sin_series cos_series pi_approx
            (frame60 2 jump_queue [] no_keys)
            (mkRobot initial_pose (mkExec 1 0 true 1) INITIAL_JOINTS) _ _ _)).
  - reflexivity.
  - reflexivity.
  - simpl. lia.
Defined.

Lemma instant_commands_take_one_frame_witness :
  exec (robotRun sin_series cos_series pi_approx
          [frame60 1 instant_queue [] no_keys; frame60 2 instant_queue [] no_keys;
           frame60 3 instant_queue [] no_keys]
          (grounded instant_queue))
  = mkExec 3 0 true 3.
Proof.
  refine (instant_commands_take_one_frame sin_series cos_series pi_approx
            instant_queue _ (grounded instant_queue) _ _ _ _ _).
  - unfold instant_queue.
    constructor; [left; reflexivity|].
    constructor; [right; split; [reflexivity|discriminate]|].
    constructor; [left; reflexivity|]. constructor.
  - repeat constructor.
  - reflexivity.
  - reflexivity.
  - simpl. lia.
Defined.

Lemma airborne_jump_is_lost_witness :
  cmdIndex (exec (fst (robotFrame sin_series cos_series pi_approx
     (frame60 1 jump_queue [] no_keys) (dropped jump_queue)))) = 1%nat /\
  pose (fst (robotFrame sin_series cos_series pi_approx
     (frame60 1 jump_queue [] no_keys) (dropped jump_queue)))
    = physics sin_series cos_series [] (1 # 60) idle initial_pose.
Proof.
  refine (airborne_jump_is_lost sin_series cos_series pi_approx
            (frame60 1 jump_queue [] no_keys) (dropped jump_queue)
            (mkCommand "JUMP" None None None) _ _ _ _ _ _); reflexivity.
Defined.

Lemma timed_command_frame_witness :
  exec (fst (robotFrame sin_series cos_series pi_approx
     (frame60 1 forward_queue [] no_keys) (grounded forward_queue)))
    = mkExec 0 1 true 1 /\
  resolvedIntent (frame60 1 forward_queue [] no_keys) (grounded forward_queue)
    = Some (mkIntent 1 0 false "walk").
Proof.
  refine (proj1 (timed_command_frame sin_series cos_series pi_approx
            (frame60 1 forward_queue [] no_keys) (grounded forward_queue)
            (mkCommand "MOVE_FORWARD" (Some 2.0) None (Some "walk"%string)) _ _ _ _ _) _).
  - reflexivity.
  - reflexivity.
  - reflexivity.
  - discriminate.
  - discriminate.
  - reflexivity.
Defined.

Lemma clear_then_install_restarts_witness :
  installQueue jump_queue (installQueue [] (mkExec 1 0 true 1)) = mkExec 0 0 true 1.
Proof.
  refine (proj1 (clear_then_install_restarts jump_queue (mkExec 1 0 true 1) _)).
  discriminate.
Defined.

Lemma grounded_rest_is_stable_witness :
  y (position (pose (fst (robotFrame sin_series cos_series pi_approx
     (frame60 1 forward_queue [] no_keys) (grounded forward_queue))))) == GROUND_Y /\
  verticalVel (pose (fst (robotFrame sin_series cos_series pi_approx
     (frame60 1 forward_queue [] no_keys) (grounded forward_queue)))) == 0.
Proof.
  refine (grounded_rest_is_stable sin_series cos_series pi_approx
            (frame60 1 forward_queue [] no_keys) (grounded forward_queue)
            (mkIntent 1 0 false "walk") _ _ _ _ _).
  - reflexivity.
  - reflexivity.
  - reflexivity.
  - reflexivity.
  - intro H. discriminate H.
Defined.

Lemma collision_ignores_order_and_ids_witness :
  robotFrame sin_series cos_series pi_approx
    (withTracker [("a"%string, mkVector3 0 0.15 0.5); ("b"%string, mkVector3 3 0.15 3)]
                 (frame60 1 forward_queue [] no_keys)) (grounded forward_queue) =
  robotFrame sin_series cos_series pi_approx
    (withTracker [("x"%string, mkVector3 3 0.15 3); ("y"%string, mkVector3 0 0.15 0.5);
                  ("z"%string, mkVector3 3 0.15 3)]
                 (frame60 1 forward_queue [] no_keys)) (grounded forward_queue).
Proof.
  apply (collision_ignores_order_and_ids sin_series cos_series pi_approx).
  intro o. simpl. tauto.
Defined.

Lemma object_stays_above_floor_witness :
  0.15 <= y (pos (fst (objectRun [1 # 60; 1 # 60; 1 # 30] "cube_red" falling_cube []))).
Proof.
  refine (proj1 (object_stays_above_floor [1 # 60; 1 # 60; 1 # 30] "cube_red" falling_cube [] _)).
  intro H. discriminate H.
Defined.

Lemma low_object_never_moves_witness :
  objectRun [1 # 60; 1 # 2; 3] "cube_red"
    (fst (syncObject "cube_red" sunk_cube cube_ahead))
    (snd (syncObject "cube_red" sunk_cube cube_ahead))
  = (mkBody sunk_cube 0, [("cube_red"%string, sunk_cube)]).
Proof.
  refine (low_object_never_moves [1 # 60; 1 # 2; 3] "cube_red" sunk_cube cube_ahead _).
  intro H. discriminate H.
Defined.

Lemma rebound_is_upward_witness :
  0 <= velocity (fst (objectFrame true (1 # 60) "cube_red" falling_cube [])).
Proof.
  pose proof (rebound_is_upward (1 # 60) "cube_red" falling_cube []) as H.
  cbv zeta in H.
  destruct H as [_ [H _]].
  - right. reflexivity.
  - intro H. discriminate H.
  - intro H. discriminate H.
  - reflexivity.
  - exact H.
Defined.

Lemma gait_overlay_is_bounded_witness :
  Qabs (FL_thigh (renderedJoints (fst (robotFrame sin_series cos_series pi_approx
          (frame60 0 forward_queue [] no_keys) (grounded forward_queue))))
        - FL_thigh INITIAL_JOINTS) <= GAIT_AMP.
Proof.
  pose proof (gait_overlay_is_bounded sin_series cos_series pi_approx
                (frame60 0 forward_queue [] no_keys) (grounded forward_queue)
                (mkIntent 1 0 false "walk") FL eq_refl) as H.
  cbv zeta in H. destruct H as [_ [H _]].
  - split; intro H; discriminate H.
  - split; intro H; discriminate H.
  - intro H. discriminate H.
  - exact H.
Defined.

Lemma robot_lands_within_witness :
  y (position (pose (robotRun sin_series cos_series pi_approx
       (repeat (manual_frame 1 (1 # 60) no_keys) 23) (dropped [])))) == GROUND_Y /\
  verticalVel (pose (robotRun sin_series cos_series pi_approx
       (repeat (manual_frame 1 (1 # 60) no_keys) 23) (dropped []))) == 0.
Proof.
  refine (robot_lands_within sin_series cos_series pi_approx (1 # 60)
            (repeat (manual_frame 1 (1 # 60) no_keys) 23) (dropped []) _ _ _ _ _).
  - reflexivity.
  - simpl. repeat (constructor; [repeat split|]). constructor.
  - reflexivity.
  - intro H. discriminate H.
  - reflexivity.
Defined.
